(** * OpenTelemetry operator: admission webhook and workload compilers

    A shallow embedding of

      - [apis/v1alpha1/opampbridge_webhook.go]  (the OpAMPBridge webhook),
      - [internal/manifests/targetallocator/deployment.go],
      - the collector [DaemonSet] builder,

    together with the properties the design document states about them.
    The functions these call and that are not among the sources are either
    taken as parameters (the [Env] classes) or, where a property rests on
    what they return, modelled from the design document; the bridge
    [Deployment], of which only the tests are there, is modelled from the
    document and the tests.

    Conventions.  A Go [string] is a byte string, i.e. a Rocq [string]; a Go
    [map[string]string] that may be [nil] is an [option (gmap string string)];
    a pointer that may be [nil] is an [option]; a slice is a [list] ([nil] is
    the empty list); an [int32] is a [Z].  A call to a logger appends one
    entry to an explicit log that is threaded through the code by a writer
    monad. *)

From Stdlib Require Import ZArith Ascii Lia.
From stdpp Require Import base option list strings gmap fin_maps.

Local Open Scope Z_scope.

(** ** Go values *)

(** [map[string]string]: [None] is the nil map. *)
Abbreviation GoMap := (option (gmap string string)).

(** The entries of a map; the nil map has none. *)
Definition entries (m : GoMap) : gmap string string := default ∅ m.

(** [m[k]]: reading a missing key (or a nil map) gives the zero value. *)
Definition index (m : GoMap) (k : string) : string := default "" (entries m !! k).

(** [m[k] = v] on a map that is not nil. *)
Definition assign (m : GoMap) (k v : string) : GoMap := Some (<[k := v]> (entries m)).

(** An argument of a [fmt] verb. *)
Inductive fmtArg :=
| ArgString (s : string)
| ArgStrings (l : list string)
| ArgInt (z : Z).

(** [fmt.Errorf(format, args...)], kept unrendered: the format string and the
    arguments it was given. *)
Record error := Errorf { format : string; args : list fmtArg }.

(** One call of [Info] on a logger: the logger's name, the message and the
    key/value pairs. *)
Record LogEntry := Info { logger : string; msg : string; keysAndValues : list (string * string) }.

(** A computation that writes to the log. *)
Definition Logged (A : Type) : Type := list LogEntry * A.

Definition written {A} (m : Logged A) : list LogEntry := fst m.
Definition result {A} (m : Logged A) : A := snd m.

#[export] Instance Logged_ret : MRet Logged := λ A x, ([], x).
#[export] Instance Logged_bind : MBind Logged :=
  λ A B f m, (fst m ++ fst (f (snd m)), snd (f (snd m))).

Definition logInfo (l m : string) (kv : list (string * string)) : Logged unit :=
  ([Info l m kv], tt).

(** [s] occurs in [t] ([strings.Contains(t, s)]). *)
Fixpoint Contains (t s : string) : bool :=
  String.prefix s t ||
  match t with
  | EmptyString => false
  | String _ t' => Contains t' s
  end.

(** ** [strings.TrimSpace] of the Go standard library *)
Module Strings.

Definition code (a : ascii) : N := N_of_ascii a.

(** The ASCII white space of [asciiSpace]: tab, line feed, vertical tab,
    form feed, carriage return and space. *)
Definition asciiSpace (a : ascii) : bool :=
  let c := code a in
  ((9 <=? c) && (c <=? 13) || (c =? 32))%N.

(** The two-byte UTF-8 encodings of white space: U+0085 and U+00A0. *)
Definition space2 (a b : ascii) : bool :=
  ((code a =? 194) && ((code b =? 133) || (code b =? 160)))%N.

(** The three-byte UTF-8 encodings of white space: U+1680, U+2000 to
    U+200A, U+2028, U+2029, U+202F, U+205F and U+3000. *)
Definition space3 (a b c : ascii) : bool :=
  let x := code a in let y := code b in let z := code c in
  ((x =? 225) && (y =? 154) && (z =? 128)
   || (x =? 226) && (y =? 128)
      && ((128 <=? z) && (z <=? 138) || (z =? 168) || (z =? 169) || (z =? 175))
   || (x =? 226) && (y =? 129) && (z =? 159)
   || (x =? 227) && (y =? 128) && (z =? 128))%N.

(** [TrimLeftFunc(s, unicode.IsSpace)]: drop leading runes that are white
    space.  A byte that starts no white-space rune stops the scan. *)
Fixpoint TrimLeft (s : string) : string :=
  match s with
  | EmptyString => s
  | String a s1 =>
      if asciiSpace a then TrimLeft s1 else
      match s1 with
      | EmptyString => s
      | String b s2 =>
          if space2 a b then TrimLeft s2 else
          match s2 with
          | EmptyString => s
          | String c s3 => if space3 a b c then TrimLeft s3 else s
          end
      end
  end.

(** The same scan over the reversed string, for the trailing runes: the
    bytes of a rune come last byte first. *)
Fixpoint TrimLeftRev (s : string) : string :=
  match s with
  | EmptyString => s
  | String a s1 =>
      if asciiSpace a then TrimLeftRev s1 else
      match s1 with
      | EmptyString => s
      | String b s2 =>
          if space2 b a then TrimLeftRev s2 else
          match s2 with
          | EmptyString => s
          | String c s3 => if space3 c b a then TrimLeftRev s3 else s
          end
      end
  end.

Definition TrimRight (s : string) : string := String.rev (TrimLeftRev (String.rev s)).

Definition TrimSpace (s : string) : string := TrimRight (TrimLeft s).

End Strings.

(** ** [k8s.io/apimachinery/pkg/util/validation]

    The two checks of the library that [validateCRDSpec] calls, as the
    library defines them: a port name has at most 15 characters, all of
    [-a-z0-9], a letter among them, no two hyphens in a row and no hyphen
    at either end; a port number lies between 1 and 65535. *)
Module Validation.

Definition isLower (a : ascii) : bool :=
  let c := N_of_ascii a in ((97 <=? c) && (c <=? 122))%N.
Definition isDigit (a : ascii) : bool :=
  let c := N_of_ascii a in ((48 <=? c) && (c <=? 57))%N.
Definition isHyphen (a : ascii) : bool := (N_of_ascii a =? 45)%N.

Fixpoint allChars (p : ascii -> bool) (s : string) : bool :=
  match s with
  | EmptyString => true
  | String a s' => p a && allChars p s'
  end.

Fixpoint someChar (p : ascii -> bool) (s : string) : bool :=
  match s with
  | EmptyString => false
  | String a s' => p a || someChar p s'
  end.

Definition firstIs (p : ascii -> bool) (s : string) : bool :=
  match s with
  | EmptyString => false
  | String a _ => p a
  end.

(** [^[-a-z0-9]+$] *)
Definition portNameCharset (s : string) : bool :=
  negb (String.eqb s "") && allChars (fun a => isHyphen a || isLower a || isDigit a) s.

(** [IsValidPortName]: the list of problems of a port name; empty when the
    name is valid. *)
Definition IsValidPortName (port : string) : list string :=
  (if (15 <? Z.of_nat (String.length port)) then ["must be no more than 15 characters"] else [])
  ++ (if portNameCharset port then []
      else ["must contain only alpha-numeric characters (a-z, 0-9), and hyphens (-)"])
  ++ (if someChar isLower port then [] else ["must contain at least one letter (a-z)"])
  ++ (if Contains port "--" then ["must not contain consecutive hyphens"] else [])
  ++ (if firstIs isHyphen port || firstIs isHyphen (String.rev port)
      then ["must not begin or end with a hyphen"] else []).

(** [IsValidPortNum]: the list of problems of a port number. *)
Definition IsValidPortNum (port : Z) : list string :=
  if (1 <=? port) && (port <=? 65535) then []
  else ["must be between 1 and 65535, inclusive"].

End Validation.

(** ** The Kubernetes API objects the code builds and reads

    Only the fields that the modelled code sets or reads are kept. *)
Module Metav1.

Record ObjectMeta := {
  Name : string;
  Namespace : string;
  Labels : GoMap;
  Annotations : GoMap }.

Record LabelSelector := { MatchLabels : GoMap }.

End Metav1.

Module Corev1.

Record ServicePort := { PortName : string; Port : Z }.

Record Container := { ContainerName : string; Image : string; Args : list string }.

Record Volume := { VolumeName : string; VolumeConfigMap : string }.

Record Toleration := { Key : string; Value : string; Effect : string }.

Record NodeSelectorRequirement := {
  RequirementKey : string; Operator : string; Values : list string }.

(** [Affinity]: the required node-selector terms of its node affinity. *)
Record Affinity := { NodeSelectorTerms : list (list NodeSelectorRequirement) }.

Record PodSecurityContext := {
  RunAsNonRoot : option bool;
  RunAsUser : option Z;
  RunAsGroup : option Z }.

Record TopologySpreadConstraint := { MaxSkew : Z; TopologyKey : string }.

Record ConfigMap := { ConfigMapMeta : Metav1.ObjectMeta; Data : gmap string string }.

(** [type DNSPolicy string] and the two policies the compilers use. *)
Definition DNSPolicy := string.
Definition DNSClusterFirst : DNSPolicy := "ClusterFirst".
Definition DNSClusterFirstWithHostNet : DNSPolicy := "ClusterFirstWithHostNet".

Record PodSpec := {
  ServiceAccountName : string;
  InitContainers : list Container;
  Containers : list Container;
  Volumes : list Volume;
  Tolerations : list Toleration;
  NodeSelector : GoMap;
  HostNetwork : bool;
  DNSPolicy_ : DNSPolicy;
  SecurityContext : option PodSecurityContext;
  PriorityClassName : string;
  Affinity_ : option Affinity;
  TopologySpreadConstraints : list TopologySpreadConstraint }.

Record PodTemplateSpec := { TemplateMeta : Metav1.ObjectMeta; TemplateSpec : PodSpec }.

End Corev1.

Module Appsv1.

Record DeploymentSpec := {
  Replicas : option Z;
  Selector : Metav1.LabelSelector;
  Template : Corev1.PodTemplateSpec }.

Record Deployment := { DeploymentMeta : Metav1.ObjectMeta; Spec : DeploymentSpec }.

Record DaemonSetSpec := {
  DaemonSetSelector : Metav1.LabelSelector;
  DaemonSetTemplate : Corev1.PodTemplateSpec }.

Record DaemonSet := { DaemonSetMeta : Metav1.ObjectMeta; DaemonSetSpec_ : DaemonSetSpec }.

(** What the properties below read off a workload, whichever its kind. *)
Record Workload := {
  selector : GoMap;
  podLabels : GoMap;
  podAnnotations : GoMap;
  podSpec : Corev1.PodSpec }.

Definition ofDeployment (d : Deployment) : Workload :=
  {| selector := Metav1.MatchLabels (Selector (Spec d));
     podLabels := Metav1.Labels (Corev1.TemplateMeta (Template (Spec d)));
     podAnnotations := Metav1.Annotations (Corev1.TemplateMeta (Template (Spec d)));
     podSpec := Corev1.TemplateSpec (Template (Spec d)) |}.

Definition ofDaemonSet (d : DaemonSet) : Workload :=
  {| selector := Metav1.MatchLabels (DaemonSetSelector (DaemonSetSpec_ d));
     podLabels := Metav1.Labels (Corev1.TemplateMeta (DaemonSetTemplate (DaemonSetSpec_ d)));
     podAnnotations :=
       Metav1.Annotations (Corev1.TemplateMeta (DaemonSetTemplate (DaemonSetSpec_ d)));
     podSpec := Corev1.TemplateSpec (DaemonSetTemplate (DaemonSetSpec_ d)) |}.

End Appsv1.

(** ** Package [v1alpha1]: the OpAMPBridge resource and its webhook *)
Module V1alpha1.

Record OpAMPBridgeSpec := {
  Endpoint : string;
  Protocol : string;
  Capabilities : list string;
  Ports : list Corev1.ServicePort;
  UpgradeStrategy : string;
  Replicas : option Z;
  Tolerations : list Corev1.Toleration;
  NodeSelector : GoMap;
  HostNetwork : bool;
  PodAnnotations : GoMap;
  PodSecurityContext : option Corev1.PodSecurityContext;
  PriorityClassName : string;
  Affinity : option Corev1.Affinity }.

Record OpAMPBridge := { ObjectMeta : Metav1.ObjectMeta; Spec : OpAMPBridgeSpec }.

(** The embedded [ObjectMeta]'s fields, as Go promotes them. *)
Definition Name (r : OpAMPBridge) : string := Metav1.Name (ObjectMeta r).
Definition Namespace (r : OpAMPBridge) : string := Metav1.Namespace (ObjectMeta r).
Definition Labels (r : OpAMPBridge) : GoMap := Metav1.Labels (ObjectMeta r).

(** Assignments to single fields. *)
Definition setLabels (l : GoMap) (r : OpAMPBridge) : OpAMPBridge :=
  {| ObjectMeta :=
       {| Metav1.Name := Name r; Metav1.Namespace := Namespace r;
          Metav1.Labels := l;
          Metav1.Annotations := Metav1.Annotations (ObjectMeta r) |};
     Spec := Spec r |}.

Definition setUpgradeStrategy (u : string) (r : OpAMPBridge) : OpAMPBridge :=
  let s := Spec r in
  {| ObjectMeta := ObjectMeta r;
     Spec :=
       {| Endpoint := Endpoint s; Protocol := Protocol s;
          Capabilities := Capabilities s; Ports := Ports s;
          UpgradeStrategy := u; Replicas := Replicas s;
          Tolerations := Tolerations s; NodeSelector := NodeSelector s;
          HostNetwork := HostNetwork s; PodAnnotations := PodAnnotations s;
          PodSecurityContext := PodSecurityContext s;
          PriorityClassName := PriorityClassName s; Affinity := Affinity s |} |}.

Definition setReplicas (n : option Z) (r : OpAMPBridge) : OpAMPBridge :=
  let s := Spec r in
  {| ObjectMeta := ObjectMeta r;
     Spec :=
       {| Endpoint := Endpoint s; Protocol := Protocol s;
          Capabilities := Capabilities s; Ports := Ports s;
          UpgradeStrategy := UpgradeStrategy s; Replicas := n;
          Tolerations := Tolerations s; NodeSelector := NodeSelector s;
          HostNetwork := HostNetwork s; PodAnnotations := PodAnnotations s;
          PodSecurityContext := PodSecurityContext s;
          PriorityClassName := PriorityClassName s; Affinity := Affinity s |} |}.

(** [logf.Log.WithName("opampbridge-resource")] *)
Definition opampbridgelog : string := "opampbridge-resource".

Definition managedBy : string := "app.kubernetes.io/managed-by".

Section Webhook.

(** The constant [UpgradeStrategyAutomatic], declared with the API types. *)
Variable UpgradeStrategyAutomatic : string.

(** [func (r *OpAMPBridge) Default()]: the receiver after the call. *)
Definition Default (r : OpAMPBridge) : Logged OpAMPBridge :=
  logInfo opampbridgelog "default" [("name", Name r)] ;;
  let r :=
    if (String.length (UpgradeStrategy (Spec r)) =? 0)%nat
    then setUpgradeStrategy UpgradeStrategyAutomatic r else r in
  let r := if Labels r is None then setLabels (Some ∅) r else r in
  let r :=
    if String.eqb (index (Labels r) managedBy) ""
    then setLabels (assign (Labels r) managedBy "opentelemetry-operator") r else r in
  let one := 1 in
  let r := if Replicas (Spec r) is None then setReplicas (Some one) r else r in
  mret r.

(** The four statements of [Default], each as a change of the receiver. *)
Definition defaultUpgradeStrategy (r : OpAMPBridge) : OpAMPBridge :=
  if (String.length (UpgradeStrategy (Spec r)) =? 0)%nat
  then setUpgradeStrategy UpgradeStrategyAutomatic r else r.

Definition makeLabels (r : OpAMPBridge) : OpAMPBridge :=
  if Labels r is None then setLabels (Some ∅) r else r.

Definition defaultManagedBy (r : OpAMPBridge) : OpAMPBridge :=
  if String.eqb (index (Labels r) managedBy) ""
  then setLabels (assign (Labels r) managedBy "opentelemetry-operator") r else r.

Definition defaultReplicas (r : OpAMPBridge) : OpAMPBridge :=
  if Replicas (Spec r) is None then setReplicas (Some 1) r else r.

End Webhook.

(** The loop over the ports of [validateCRDSpec]: the first port with a
    problem ends it. *)
Fixpoint validatePorts (ports : list Corev1.ServicePort) : option error :=
  match ports with
  | [] => None
  | p :: ports' =>
      let nameErrs := Validation.IsValidPortName (Corev1.PortName p) in
      let numErrs := Validation.IsValidPortNum (Corev1.Port p) in
      if (0 <? length nameErrs)%nat || (0 <? length numErrs)%nat
      then Some (Errorf
        "the OpAMPBridge Spec Ports configuration is incorrect, port name '%s' errors: %s, num '%d' errors: %s"
        [ArgString (Corev1.PortName p); ArgStrings nameErrs;
         ArgInt (Corev1.Port p); ArgStrings numErrs])
      else validatePorts ports'
  end.

(** [func (r *OpAMPBridge) validateCRDSpec() error]; [None] is [nil]. *)
Definition validateCRDSpec (r : OpAMPBridge) : option error :=
  if (String.length (Strings.TrimSpace (Endpoint (Spec r))) =? 0)%nat
  then Some (Errorf "the OpAMP server endpoint is not specified" [])
  else if (String.length (Strings.TrimSpace (Protocol (Spec r))) =? 0)%nat
  then Some (Errorf "the transport for OpAMP server protocol is not specified" [])
  else if (length (Capabilities (Spec r)) =? 0)%nat
  then Some (Errorf "the capabilities supported by OpAMP Bridge are not specified" [])
  else validatePorts (Ports (Spec r)).

(** [func (r *OpAMPBridge) ValidateCreate() error]: the value of
    [r.validateCRDSpec()] is computed and not used. *)
Definition ValidateCreate (r : OpAMPBridge) : Logged (option error) :=
  logInfo opampbridgelog "validate create" [("name", Name r)] ;;
  let _ := validateCRDSpec r in
  mret None.

(** [func (r *OpAMPBridge) ValidateUpdate(old runtime.Object) error] *)
Definition ValidateUpdate {Object : Type} (r : OpAMPBridge) (old : Object)
  : Logged (option error) :=
  logInfo opampbridgelog "validate update" [("name", Name r)] ;;
  mret None.

(** [func (r *OpAMPBridge) ValidateDelete() error] *)
Definition ValidateDelete (r : OpAMPBridge) : Logged (option error) :=
  logInfo opampbridgelog "validate delete" [("name", Name r)] ;;
  mret None.

(** The OpenTelemetryCollector resource, which the target-allocator and
    collector compilers read.  Its fields live in a name space of their
    own, several being named like those of the bridge. *)
Module OtelCol.

(** [OpenTelemetryCollectorSpec.TargetAllocator] *)
Record TargetAllocatorSpec := {
  Replicas : option Z;
  NodeSelector : GoMap;
  TopologySpreadConstraints : list Corev1.TopologySpreadConstraint }.

Record Spec := {
  TargetAllocator : TargetAllocatorSpec;
  InitContainers : list Corev1.Container;
  AdditionalContainers : list Corev1.Container;
  Tolerations : list Corev1.Toleration;
  PodNodeSelector : GoMap;
  HostNetwork : bool;
  PodAnnotations : GoMap;
  PodSecurityContext : option Corev1.PodSecurityContext;
  PriorityClassName : string;
  Affinity : option Corev1.Affinity }.

Record OpenTelemetryCollector := { ObjectMeta : Metav1.ObjectMeta; spec : Spec }.

Definition Name (o : OpenTelemetryCollector) : string := Metav1.Name (ObjectMeta o).
Definition Namespace (o : OpenTelemetryCollector) : string :=
  Metav1.Namespace (ObjectMeta o).
Definition Labels (o : OpenTelemetryCollector) : GoMap := Metav1.Labels (ObjectMeta o).
Definition Annotations (o : OpenTelemetryCollector) : GoMap :=
  Metav1.Annotations (ObjectMeta o).

End OtelCol.

End V1alpha1.

(** ** Packages [config] and [manifests] *)
Module Config.

(** The process-wide configuration: the label-filter patterns. *)
Record Config := { LabelsFilter : list string }.

End Config.

Module Manifests.

(** [manifests.Params]; a [logr.Logger] is known by its name. *)
Record Params := {
  OtelCol : V1alpha1.OtelCol.OpenTelemetryCollector;
  Log : string;
  Config : Config.Config }.

End Manifests.

(** ** Label synthesis

    Modelled from the spec: the [Labels] and [SelectorLabels] functions of the
    three compiler packages, which are not among the sources.  Section 4.1:
    the identity labels [component], [instance] (namespace, a dot, name),
    [managed-by], [part-of], [version] and [name] are computed
    unconditionally, and the labels of the resource are merged in, except the
    keys that a filter pattern matches; the selector labels are [component],
    [instance], [managed-by] and [part-of] only.  Unconditionally: a label of
    the resource never replaces an identity label.  The keys and the fixed
    values are those of [deployment_test.go]. *)
Module LabelSynthesis.

Definition componentKey : string := "app.kubernetes.io/component".
Definition instanceKey : string := "app.kubernetes.io/instance".
Definition managedByKey : string := "app.kubernetes.io/managed-by".
Definition partOfKey : string := "app.kubernetes.io/part-of".
Definition versionKey : string := "app.kubernetes.io/version".
Definition nameKey : string := "app.kubernetes.io/name".

(** Modelled from the spec: the instance label, [<namespace>.<name>]. *)
Definition instanceOf (namespace name : string) : string := namespace +:+ "." +:+ name.

(** Modelled from the spec: the selector labels, [component], [instance],
    [managed-by] and [part-of]. *)
Definition SelectorLabels (component namespace name : string) : gmap string string :=
  <[componentKey := component]>
    (<[instanceKey := instanceOf namespace name]>
       (<[managedByKey := "opentelemetry-operator"]>
          (<[partOfKey := "opentelemetry"]> ∅))).

(** Modelled from the spec: the version label, a fixed value unless the
    resource pins one. *)
Definition versionOf (pinned : option string) : string := default "latest" pinned.

(** Modelled from the spec: the identity labels, the selector labels with
    [version] and [name], the name being the canonical name handed in. *)
Definition identityLabels (component namespace name canonicalName : string)
    (pinned : option string) : gmap string string :=
  <[nameKey := canonicalName]>
    (<[versionKey := versionOf pinned]> (SelectorLabels component namespace name)).

(** Modelled from the spec: the labels of the resource that no pattern
    excludes; [filtered] tells whether a pattern matches a key. *)
Definition userLabels (filtered : string -> bool) (labels : GoMap) : gmap string string :=
  filter (fun kv => filtered kv.1 = false) (entries labels).

(** Modelled from the spec: the label set, the identity labels and, where
    they leave a key free, the labels of the resource that are not excluded. *)
Definition Labels (component namespace name canonicalName : string)
    (pinned : option string) (filtered : string -> bool) (labels : GoMap)
  : gmap string string :=
  identityLabels component namespace name canonicalName pinned ∪ userLabels filtered labels.

End LabelSynthesis.

(** ** Package [targetallocator] *)
Module Targetallocator.

Import V1alpha1.

(** The members of the package, and of [naming], that [Deployment] calls and
    that are not among the sources.  Those that are handed the logger may
    write to it. *)
Class Env := {
  component : string;
  configMapHashAnnotationKey : string;
  TargetAllocator : string -> string;
  pinnedVersion : OtelCol.OpenTelemetryCollector -> option string;
  ConfigMap : Manifests.Params -> Logged (option Corev1.ConfigMap * option error);
  configMapHash : Corev1.ConfigMap -> option string;
  ServiceAccountName : OtelCol.OpenTelemetryCollector -> string;
  Container :
    Config.Config -> string -> OtelCol.OpenTelemetryCollector -> Logged Corev1.Container;
  Volumes : Config.Config -> OtelCol.OpenTelemetryCollector -> list Corev1.Volume }.

Section Package.
Context {env : Env}.

(** Modelled from the spec: [Labels(otelcol, name)], section 4.1 with no
    filter pattern, which this package's [Labels] is not given. *)
Definition Labels (otelcol : OtelCol.OpenTelemetryCollector) (name : string)
  : gmap string string :=
  LabelSynthesis.Labels component (OtelCol.Namespace otelcol) (OtelCol.Name otelcol)
    name (pinnedVersion otelcol) (fun _ => false) (OtelCol.Labels otelcol).

(** Modelled from the spec: [Annotations(otelcol, configMap)], section
    4.2.  The annotations of the resource are passed through; when the
    config map is there and its hash can be computed, the hash is added
    under the fixed key. *)
Definition Annotations (otelcol : OtelCol.OpenTelemetryCollector)
    (configMap : option Corev1.ConfigMap) : gmap string string :=
  let annotations := entries (OtelCol.Annotations otelcol) in
  match configMap with
  | Some cm =>
      match configMapHash cm with
      | Some h => <[configMapHashAnnotationKey := h]> annotations
      | None => annotations
      end
  | None => annotations
  end.

(** [func Deployment(params manifests.Params) *appsv1.Deployment] *)
Definition Deployment (params : Manifests.Params) : Logged Appsv1.Deployment :=
  let otelcol := Manifests.OtelCol params in
  let logger := Manifests.Log params in
  let name := TargetAllocator (OtelCol.Name otelcol) in
  let labels := Labels otelcol name in
  '(configMap, err) ← ConfigMap params;
  configMap ←
    (if err is Some _
     then logInfo logger "failed to construct target allocator config map for annotations" [] ;;
          mret None
     else mret configMap);
  let annotations := Annotations otelcol configMap in
  container ← Container (Manifests.Config params) logger otelcol;
  mret
    {| Appsv1.DeploymentMeta :=
         {| Metav1.Name := name;
            Metav1.Namespace := OtelCol.Namespace otelcol;
            Metav1.Labels := Some labels;
            Metav1.Annotations := None |};
       Appsv1.Spec :=
         {| Appsv1.Replicas := OtelCol.Replicas (OtelCol.TargetAllocator (OtelCol.spec otelcol));
            Appsv1.Selector := {| Metav1.MatchLabels := Some labels |};
            Appsv1.Template :=
              {| Corev1.TemplateMeta :=
                   {| Metav1.Name := "";
                      Metav1.Namespace := "";
                      Metav1.Labels := Some labels;
                      Metav1.Annotations := Some annotations |};
                 Corev1.TemplateSpec :=
                   {| Corev1.ServiceAccountName := ServiceAccountName otelcol;
                      Corev1.InitContainers := [];
                      Corev1.Containers := [container];
                      Corev1.Volumes := Volumes (Manifests.Config params) otelcol;
                      Corev1.Tolerations := [];
                      Corev1.NodeSelector :=
                        OtelCol.NodeSelector (OtelCol.TargetAllocator (OtelCol.spec otelcol));
                      Corev1.HostNetwork := false;
                      Corev1.DNSPolicy_ := "";
                      Corev1.SecurityContext := None;
                      Corev1.PriorityClassName := "";
                      Corev1.Affinity_ := None;
                      Corev1.TopologySpreadConstraints :=
                        OtelCol.TopologySpreadConstraints
                          (OtelCol.TargetAllocator (OtelCol.spec otelcol)) |} |} |} |}.

End Package.

End Targetallocator.

(** ** Package [collector] *)
Module Collector.

Import V1alpha1.

(** The members of the package, and of [naming], that [DaemonSet] calls and
    that are not among the sources. *)
Class Env := {
  component : string;
  CollectorName : string -> string;
  pinnedVersion : OtelCol.OpenTelemetryCollector -> option string;
  isFilteredLabel : string -> list string -> bool;
  ServiceAccountName : OtelCol.OpenTelemetryCollector -> string;
  Container :
    Config.Config -> string -> OtelCol.OpenTelemetryCollector -> bool
    -> Logged Corev1.Container;
  Volumes : Config.Config -> OtelCol.OpenTelemetryCollector -> list Corev1.Volume }.

Section Package.
Context {env : Env}.

(** Modelled from the spec: [Labels(otelcol, name, filterLabels)],
    section 4.1. *)
Definition Labels (otelcol : OtelCol.OpenTelemetryCollector) (name : string)
    (filterLabels : list string) : gmap string string :=
  LabelSynthesis.Labels component (OtelCol.Namespace otelcol) (OtelCol.Name otelcol)
    name (pinnedVersion otelcol) (fun k => isFilteredLabel k filterLabels)
    (OtelCol.Labels otelcol).

(** Modelled from the spec: [SelectorLabels(otelcol)], section 4.1. *)
Definition SelectorLabels (otelcol : OtelCol.OpenTelemetryCollector)
  : gmap string string :=
  LabelSynthesis.SelectorLabels component (OtelCol.Namespace otelcol)
    (OtelCol.Name otelcol).

(** Modelled from the spec: [Annotations(otelcol)], section 4.2 with no
    dependent object: the annotations of the resource, passed through. *)
Definition Annotations (otelcol : OtelCol.OpenTelemetryCollector) : GoMap :=
  OtelCol.Annotations otelcol.

(** Modelled from the spec: [PodAnnotations(otelcol)], section 4.2: the
    annotations declared for the pod template. *)
Definition PodAnnotations (otelcol : OtelCol.OpenTelemetryCollector) : GoMap :=
  OtelCol.PodAnnotations (OtelCol.spec otelcol).

(** Modelled from the spec: [getDNSPolicy(otelcol)], the table of section
    4.3: [ClusterFirst] if [HostNetwork] is false, else
    [ClusterFirstWithHostNet]. *)
Definition getDNSPolicy (otelcol : OtelCol.OpenTelemetryCollector) : Corev1.DNSPolicy :=
  if OtelCol.HostNetwork (OtelCol.spec otelcol)
  then Corev1.DNSClusterFirstWithHostNet
  else Corev1.DNSClusterFirst.

(** [func DaemonSet(params manifests.Params) *appsv1.DaemonSet] *)
Definition DaemonSet (params : Manifests.Params) : Logged Appsv1.DaemonSet :=
  let otelcol := Manifests.OtelCol params in
  let logger := Manifests.Log params in
  let name := CollectorName (OtelCol.Name otelcol) in
  let labels := Labels otelcol name (Config.LabelsFilter (Manifests.Config params)) in
  let annotations := Annotations otelcol in
  let podAnnotations := PodAnnotations otelcol in
  container ← Container (Manifests.Config params) logger otelcol true;
  mret
    {| Appsv1.DaemonSetMeta :=
         {| Metav1.Name := CollectorName (OtelCol.Name otelcol);
            Metav1.Namespace := OtelCol.Namespace otelcol;
            Metav1.Labels := Some labels;
            Metav1.Annotations := annotations |};
       Appsv1.DaemonSetSpec_ :=
         {| Appsv1.DaemonSetSelector :=
              {| Metav1.MatchLabels := Some (SelectorLabels otelcol) |};
            Appsv1.DaemonSetTemplate :=
              {| Corev1.TemplateMeta :=
                   {| Metav1.Name := "";
                      Metav1.Namespace := "";
                      Metav1.Labels := Some labels;
                      Metav1.Annotations := podAnnotations |};
                 Corev1.TemplateSpec :=
                   {| Corev1.ServiceAccountName := ServiceAccountName otelcol;
                      Corev1.InitContainers := OtelCol.InitContainers (OtelCol.spec otelcol);
                      Corev1.Containers :=
                        OtelCol.AdditionalContainers (OtelCol.spec otelcol) ++ [container];
                      Corev1.Volumes := Volumes (Manifests.Config params) otelcol;
                      Corev1.Tolerations := OtelCol.Tolerations (OtelCol.spec otelcol);
                      Corev1.NodeSelector := OtelCol.PodNodeSelector (OtelCol.spec otelcol);
                      Corev1.HostNetwork := OtelCol.HostNetwork (OtelCol.spec otelcol);
                      Corev1.DNSPolicy_ := getDNSPolicy otelcol;
                      Corev1.SecurityContext :=
                        OtelCol.PodSecurityContext (OtelCol.spec otelcol);
                      Corev1.PriorityClassName :=
                        OtelCol.PriorityClassName (OtelCol.spec otelcol);
                      Corev1.Affinity_ := OtelCol.Affinity (OtelCol.spec otelcol);
                      Corev1.TopologySpreadConstraints := [] |} |} |} |}.

End Package.

End Collector.

(** ** Package [opampbridge] *)
Module Opampbridge.

Import V1alpha1.

(** The members of the package that the compiler calls and that neither the
    sources nor the design document describe. *)
Class Env := {
  pinnedVersion : OpAMPBridge -> option string;
  isFilteredLabel : string -> list string -> bool;
  ServiceAccountName : OpAMPBridge -> string;
  Container : Config.Config -> string -> OpAMPBridge -> Logged Corev1.Container;
  Volumes : Config.Config -> OpAMPBridge -> list Corev1.Volume }.

(** The component label and the name of the workload, as
    [TestDeploymentNewDefault] expects them. *)
Definition component : string := "opentelemetry-opamp-bridge".
Definition OpAMPBridgeName (name : string) : string := name +:+ "-opamp-bridge".

Section Package.
Context {env : Env}.

(** Modelled from the spec: [Labels], section 4.1. *)
Definition Labels (opampBridge : OpAMPBridge) (name : string)
    (filterLabels : list string) : gmap string string :=
  LabelSynthesis.Labels component (Namespace opampBridge) (Name opampBridge)
    name (pinnedVersion opampBridge) (fun k => isFilteredLabel k filterLabels)
    (V1alpha1.Labels opampBridge).

(** Modelled from the spec: [SelectorLabels], section 4.1. *)
Definition SelectorLabels (opampBridge : OpAMPBridge) : gmap string string :=
  LabelSynthesis.SelectorLabels component (Namespace opampBridge) (Name opampBridge).

(** Modelled from the spec: the DNS policy of the table of section 4.3. *)
Definition getDNSPolicy (opampBridge : OpAMPBridge) : Corev1.DNSPolicy :=
  if HostNetwork (Spec opampBridge)
  then Corev1.DNSClusterFirstWithHostNet
  else Corev1.DNSClusterFirst.

(** Modelled from the spec: [Deployment(cfg, logger, opampBridge)], of
    which only the tests are among the sources.  Sections 4.3 and 4.4:
    the metadata carries the identity labels and the annotations of the
    resource, the selector the selector labels, the pod template the
    identity labels, the pod annotations and the pod spec of the field
    table, with the one managed container. *)
Definition Deployment (cfg : Config.Config) (logger : string) (opampBridge : OpAMPBridge)
  : Logged Appsv1.Deployment :=
  let name := OpAMPBridgeName (Name opampBridge) in
  let labels := Labels opampBridge name (Config.LabelsFilter cfg) in
  container ← Container cfg logger opampBridge;
  mret
    {| Appsv1.DeploymentMeta :=
         {| Metav1.Name := name;
            Metav1.Namespace := Namespace opampBridge;
            Metav1.Labels := Some labels;
            Metav1.Annotations := Metav1.Annotations (ObjectMeta opampBridge) |};
       Appsv1.Spec :=
         {| Appsv1.Replicas := Replicas (Spec opampBridge);
            Appsv1.Selector := {| Metav1.MatchLabels := Some (SelectorLabels opampBridge) |};
            Appsv1.Template :=
              {| Corev1.TemplateMeta :=
                   {| Metav1.Name := "";
                      Metav1.Namespace := "";
                      Metav1.Labels := Some labels;
                      Metav1.Annotations := PodAnnotations (Spec opampBridge) |};
                 Corev1.TemplateSpec :=
                   {| Corev1.ServiceAccountName := ServiceAccountName opampBridge;
                      Corev1.InitContainers := [];
                      Corev1.Containers := [container];
                      Corev1.Volumes := Volumes cfg opampBridge;
                      Corev1.Tolerations := Tolerations (Spec opampBridge);
                      Corev1.NodeSelector := NodeSelector (Spec opampBridge);
                      Corev1.HostNetwork := HostNetwork (Spec opampBridge);
                      Corev1.DNSPolicy_ := getDNSPolicy opampBridge;
                      Corev1.SecurityContext := PodSecurityContext (Spec opampBridge);
                      Corev1.PriorityClassName := PriorityClassName (Spec opampBridge);
                      Corev1.Affinity_ := Affinity (Spec opampBridge);
                      Corev1.TopologySpreadConstraints := [] |} |} |} |}.

End Package.

End Opampbridge.

(** ** Sample values

    The resources of [deployment_test.go] and stand-ins for the package
    members that are not among the sources, on which the definitions above
    can be run. *)
Module Samples.

Import V1alpha1.

Definition emptySpec : OpAMPBridgeSpec :=
  {| Endpoint := ""; Protocol := ""; Capabilities := []; Ports := [];
     UpgradeStrategy := ""; Replicas := None; Tolerations := [];
     NodeSelector := None; HostNetwork := false; PodAnnotations := None;
     PodSecurityContext := None; PriorityClassName := ""; Affinity := None |}.

Definition meta (namespace name : string) (labels : GoMap) : Metav1.ObjectMeta :=
  {| Metav1.Name := name; Metav1.Namespace := namespace;
     Metav1.Labels := labels; Metav1.Annotations := None |}.

(** The bridge of [TestDeploymentNewDefault], its tolerations left out. *)
Definition myInstance : OpAMPBridge :=
  {| ObjectMeta := meta "my-namespace" "my-instance" None; Spec := emptySpec |}.

(** A bridge with the three required fields and the ports given. *)
Definition bridge (endpoint protocol : string) (capabilities : list string)
    (ports : list Corev1.ServicePort) : OpAMPBridge :=
  {| ObjectMeta := meta "my-namespace" "my-instance" None;
     Spec :=
       {| Endpoint := endpoint; Protocol := protocol; Capabilities := capabilities;
          Ports := ports;
          UpgradeStrategy := ""; Replicas := None; Tolerations := [];
          NodeSelector := None; HostNetwork := false; PodAnnotations := None;
          PodSecurityContext := None; PriorityClassName := ""; Affinity := None |} |}.

(** A bridge that carries the given labels. *)
Definition labelled (labels : GoMap) : OpAMPBridge :=
  {| ObjectMeta := meta "my-namespace" "my-instance" labels; Spec := emptySpec |}.

Definition sidecar : Corev1.Container :=
  {| Corev1.ContainerName := "sidecar"; Corev1.Image := "busybox"; Corev1.Args := [] |}.

Definition managed : Corev1.Container :=
  {| Corev1.ContainerName := "otc-container"; Corev1.Image := ""; Corev1.Args := [] |}.

(** A collector in [my-namespace] with the given additional containers and
    annotations. *)
Definition collector (additional : list Corev1.Container) (annotations : GoMap)
  : OtelCol.OpenTelemetryCollector :=
  {| OtelCol.ObjectMeta :=
       {| Metav1.Name := "my-instance"; Metav1.Namespace := "my-namespace";
          Metav1.Labels := None; Metav1.Annotations := annotations |};
     OtelCol.spec :=
       {| OtelCol.TargetAllocator :=
            {| OtelCol.Replicas := None; OtelCol.NodeSelector := None;
               OtelCol.TopologySpreadConstraints := [] |};
          OtelCol.InitContainers := [];
          OtelCol.AdditionalContainers := additional;
          OtelCol.Tolerations := [];
          OtelCol.PodNodeSelector := None;
          OtelCol.HostNetwork := false;
          OtelCol.PodAnnotations := None;
          OtelCol.PodSecurityContext := None;
          OtelCol.PriorityClassName := "";
          OtelCol.Affinity := None |} |}.

Definition params (otelcol : OtelCol.OpenTelemetryCollector) : Manifests.Params :=
  {| Manifests.OtelCol := otelcol; Manifests.Log := "test";
     Manifests.Config := {| Config.LabelsFilter := [] |} |}.

(** A target-allocator package whose [ConfigMap] always fails. *)
Definition failingTA : Targetallocator.Env :=
  {| Targetallocator.component := "opentelemetry-targetallocator";
     Targetallocator.configMapHashAnnotationKey :=
       "opentelemetry-targetallocator-config/hash";
     Targetallocator.TargetAllocator := fun name => name +:+ "-targetallocator";
     Targetallocator.pinnedVersion := fun _ => None;
     Targetallocator.ConfigMap :=
       fun _ => mret (None, Some (Errorf "no config" []));
     Targetallocator.configMapHash := fun _ => Some "0000";
     Targetallocator.ServiceAccountName := fun _ => "default";
     Targetallocator.Container := fun _ _ _ => mret managed;
     Targetallocator.Volumes := fun _ _ => [] |}.

(** A target-allocator package whose [ConfigMap] succeeds. *)
Definition sampleTA : Targetallocator.Env :=
  {| Targetallocator.component := "opentelemetry-targetallocator";
     Targetallocator.configMapHashAnnotationKey :=
       "opentelemetry-targetallocator-config/hash";
     Targetallocator.TargetAllocator := fun name => name +:+ "-targetallocator";
     Targetallocator.pinnedVersion := fun _ => None;
     Targetallocator.ConfigMap :=
       fun p =>
         mret (Some {| Corev1.ConfigMapMeta :=
                         meta "my-namespace" "my-instance-targetallocator" None;
                       Corev1.Data := ∅ |}, None);
     Targetallocator.configMapHash := fun _ => Some "0000";
     Targetallocator.ServiceAccountName := fun _ => "default";
     Targetallocator.Container := fun _ _ _ => mret managed;
     Targetallocator.Volumes := fun _ _ => [] |}.

Definition sampleCollector : Collector.Env :=
  {| Collector.component := "opentelemetry-collector";
     Collector.CollectorName := fun name => name +:+ "-collector";
     Collector.pinnedVersion := fun _ => None;
     Collector.isFilteredLabel := fun _ _ => false;
     Collector.ServiceAccountName := fun _ => "default";
     Collector.Container := fun _ _ _ _ => mret managed;
     Collector.Volumes := fun _ _ => [] |}.

Definition sampleBridge : Opampbridge.Env :=
  {| Opampbridge.pinnedVersion := fun _ => None;
     Opampbridge.isFilteredLabel := fun _ _ => false;
     Opampbridge.ServiceAccountName := fun _ => "default";
     Opampbridge.Container := fun _ _ _ => mret managed;
     Opampbridge.Volumes := fun _ _ => [] |}.

End Samples.

(** ** What the properties say of a workload *)
Module Shape.

(** Every key of the selector is a label of the pod template, with the same
    value. *)
Definition selectorWithinPodLabels (w : Appsv1.Workload) : Prop :=
  entries (Appsv1.selector w) ⊆ entries (Appsv1.podLabels w).

(** The four keys of the selector labels. *)
Definition selectorKeys : gset string :=
  {[ LabelSynthesis.componentKey; LabelSynthesis.instanceKey;
     LabelSynthesis.managedByKey; LabelSynthesis.partOfKey ]}.

(** A port that [validateCRDSpec] lets through: neither its name nor its
    number has a problem. *)
Definition validPort (p : Corev1.ServicePort) : Prop :=
  Validation.IsValidPortName (Corev1.PortName p) = []
  ∧ Validation.IsValidPortNum (Corev1.Port p) = [].

#[export] Instance validPort_dec (p : Corev1.ServicePort) : Decision (validPort p).
Proof. unfold validPort. apply _. Defined.

(** A string of white space only: a sequence of white-space runes. *)
Inductive Blank : string → Prop :=
| Blank_empty : Blank ""
| Blank_ascii a s : Strings.asciiSpace a = true → Blank s → Blank (String a s)
| Blank_two a b s :
    Strings.space2 a b = true → Blank s → Blank (String a (String b s))
| Blank_three a b c s :
    Strings.space3 a b c = true → Blank s → Blank (String a (String b (String c s))).

End Shape.

(** ** Names for what the further properties speak of *)
Module Outcome.

Import V1alpha1.

(** The errors of [validateCRDSpec], one per check, as the code builds
    them. *)
Definition endpointError : error :=
  Errorf "the OpAMP server endpoint is not specified" [].

Definition protocolError : error :=
  Errorf "the transport for OpAMP server protocol is not specified" [].

Definition capabilitiesError : error :=
  Errorf "the capabilities supported by OpAMP Bridge are not specified" [].

Definition portError (p : Corev1.ServicePort) : error :=
  Errorf
    "the OpAMPBridge Spec Ports configuration is incorrect, port name '%s' errors: %s, num '%d' errors: %s"
    [ArgString (Corev1.PortName p);
     ArgStrings (Validation.IsValidPortName (Corev1.PortName p));
     ArgInt (Corev1.Port p);
     ArgStrings (Validation.IsValidPortNum (Corev1.Port p))].

(** The line that [targetallocator.Deployment] writes when [ConfigMap]
    fails. *)
Definition configMapFailure (logger : string) : LogEntry :=
  Info logger "failed to construct target allocator config map for annotations" [].

(** The target-allocator package with another [ConfigMap] in the place of
    its own. *)
Definition withConfigMap (env : Targetallocator.Env)
    (f : Manifests.Params → Logged (option Corev1.ConfigMap * option error))
  : Targetallocator.Env :=
  {| Targetallocator.component := Targetallocator.component;
     Targetallocator.configMapHashAnnotationKey := Targetallocator.configMapHashAnnotationKey;
     Targetallocator.TargetAllocator := Targetallocator.TargetAllocator;
     Targetallocator.pinnedVersion := Targetallocator.pinnedVersion;
     Targetallocator.ConfigMap := f;
     Targetallocator.configMapHash := Targetallocator.configMapHash;
     Targetallocator.ServiceAccountName := Targetallocator.ServiceAccountName;
     Targetallocator.Container := Targetallocator.Container;
     Targetallocator.Volumes := Targetallocator.Volumes |}.

(** A [Deployment] with the annotations of its pod template taken away. *)
Definition withoutPodAnnotations (d : Appsv1.Deployment) : Appsv1.Deployment :=
  let t := Appsv1.Template (Appsv1.Spec d) in
  {| Appsv1.DeploymentMeta := Appsv1.DeploymentMeta d;
     Appsv1.Spec :=
       {| Appsv1.Replicas := Appsv1.Replicas (Appsv1.Spec d);
          Appsv1.Selector := Appsv1.Selector (Appsv1.Spec d);
          Appsv1.Template :=
            {| Corev1.TemplateMeta :=
                 {| Metav1.Name := Metav1.Name (Corev1.TemplateMeta t);
                    Metav1.Namespace := Metav1.Namespace (Corev1.TemplateMeta t);
                    Metav1.Labels := Metav1.Labels (Corev1.TemplateMeta t);
                    Metav1.Annotations := None |};
               Corev1.TemplateSpec := Corev1.TemplateSpec t |} |} |}.

(** The loop that ends [TestDeploymentNewDefault]: for every key and value of
    the selector, the value is compared with what the labels of the pod
    template give for the key, read as Go reads a map; all comparisons are
    made, and the test passes when none fails. *)
Definition selectorLoop (w : Appsv1.Workload) : bool :=
  forallb (λ kv : string * string, String.eqb kv.2 (index (Appsv1.podLabels w) kv.1))
    (map_to_list (entries (Appsv1.selector w))).

End Outcome.

(** * Properties *)

(** Case analysis on the test of a conditional of the goal. *)
Ltac break_test :=
  match goal with
  | |- context [if ?c then _ else _] => destruct c eqn:?
  | |- context [match ?c with Some _ => _ | None => _ end] => destruct c eqn:?
  end.

(** Run the writer monad in the goal. *)
Ltac run_logged :=
  cbv [mbind Logged_bind mret Logged_ret logInfo written result fst snd].

(** ** The defaulting webhook *)
Module DefaultProperties.

Import V1alpha1.

Section Default.

Variable auto : string.

(** [Default] writes one line to the log. *)
Lemma Default_written (r : OpAMPBridge) :
  written (Default auto r) = [Info opampbridgelog "default" [("name", Name r)]].
Proof. reflexivity. Qed.

(** [Default] runs its four statements in order. *)
Lemma Default_steps (r : OpAMPBridge) :
  result (Default auto r)
  = defaultReplicas (defaultManagedBy (makeLabels (defaultUpgradeStrategy auto r))).
Proof. reflexivity. Qed.

Lemma Default_UpgradeStrategy (r : OpAMPBridge) :
  UpgradeStrategy (Spec (result (Default auto r)))
  = if (String.length (UpgradeStrategy (Spec r)) =? 0)%nat
    then auto else UpgradeStrategy (Spec r).
Proof.
  rewrite Default_steps.
  unfold defaultReplicas, defaultManagedBy, makeLabels, defaultUpgradeStrategy.
  repeat break_test; reflexivity.
Qed.

Lemma Default_Labels (r : OpAMPBridge) :
  Labels (result (Default auto r))
  = Some (if String.eqb (index (Labels r) managedBy) ""
          then <[managedBy := "opentelemetry-operator"]> (entries (Labels r))
          else entries (Labels r)).
Proof.
  rewrite Default_steps.
  assert (Hu : Labels (defaultUpgradeStrategy auto r) = Labels r)
    by (unfold defaultUpgradeStrategy; break_test; reflexivity).
  assert (Hr : ∀ r', Labels (defaultReplicas r') = Labels r')
    by (intros r'; unfold defaultReplicas; break_test; reflexivity).
  rewrite Hr. unfold defaultManagedBy, makeLabels. rewrite Hu.
  destruct (Labels r) as [m|] eqn:Hl; cbn.
  - rewrite Hu. break_test; cbn; [reflexivity | by rewrite Hu].
  - reflexivity.
Qed.

Lemma Default_Replicas (r : OpAMPBridge) :
  Replicas (Spec (result (Default auto r))) = Some (default 1 (Replicas (Spec r))).
Proof.
  rewrite Default_steps.
  assert (H : ∀ r', Replicas (Spec (defaultReplicas r'))
                    = Some (default 1 (Replicas (Spec r'))))
    by (intros r'; unfold defaultReplicas; break_test; cbn; congruence).
  rewrite H. do 2 f_equal.
  unfold defaultManagedBy, makeLabels, defaultUpgradeStrategy.
  repeat break_test; reflexivity.
Qed.

(** Nothing but the upgrade strategy, the labels and the replica count is
    written: putting the three old values back gives the old resource. *)
Lemma Default_other_fields (r : OpAMPBridge) :
  setReplicas (Replicas (Spec r))
    (setUpgradeStrategy (UpgradeStrategy (Spec r))
       (setLabels (Labels r) (result (Default auto r)))) = r.
Proof.
  rewrite Default_steps.
  unfold defaultReplicas, defaultManagedBy, makeLabels, defaultUpgradeStrategy.
  destruct r as [[nm ns l an] sp]; destruct sp.
  repeat break_test; reflexivity.
Qed.

(** The value of the managed-by label after [Default], read as Go reads
    a map. *)
Lemma Default_managedBy (r : OpAMPBridge) :
  entries (Labels (result (Default auto r))) !! managedBy
  = Some (if String.eqb (index (Labels r) managedBy) ""
          then "opentelemetry-operator" else index (Labels r) managedBy).
Proof.
  rewrite Default_Labels. cbn. break_test.
  - apply lookup_insert_eq.
  - unfold index in *. destruct (entries (Labels r) !! managedBy); [done |].
    discriminate.
Qed.

(** After [Default] the managed-by label is there and is not empty. *)
Lemma Default_managedBy_not_empty (r : OpAMPBridge) :
  ∃ v, entries (Labels (result (Default auto r))) !! managedBy = Some v ∧ v ≠ "".
Proof.
  rewrite Default_managedBy. eexists; split; [reflexivity |].
  break_test; [discriminate |].
  intros E. rewrite E in *. discriminate.
Qed.

(** A resource whose three fields are set is left as it is. *)
Lemma Default_fixed (r : OpAMPBridge) (m : gmap string string) (n : Z) :
  (String.length (UpgradeStrategy (Spec r)) =? 0)%nat = false
    ∨ UpgradeStrategy (Spec r) = auto →
  Labels r = Some m →
  String.eqb (index (Some m) managedBy) "" = false →
  Replicas (Spec r) = Some n →
  result (Default auto r) = r.
Proof.
  intros Hu Hl Hm Hn. rewrite Default_steps.
  assert (defaultUpgradeStrategy auto r = r) as ->.
  { unfold defaultUpgradeStrategy. destruct Hu as [-> | Hu]; [done |].
    break_test; [| done]. destruct r as [mt sp]; destruct sp; cbn in *. by subst. }
  unfold makeLabels. rewrite Hl.
  unfold defaultManagedBy. rewrite Hl, Hm.
  unfold defaultReplicas. by rewrite Hn.
Qed.

End Default.

(** C5.  [Default] is idempotent: the resource that [Default] leaves is left
    as it is by a second [Default]. *)
Theorem Default_idempotent (auto : string) (r : OpAMPBridge) :
  result (Default auto (result (Default auto r))) = result (Default auto r).
Proof.
  eapply Default_fixed.
  - rewrite Default_UpgradeStrategy. break_test; auto.
  - apply Default_Labels.
  - break_test; [| done].
    unfold index; cbn. by rewrite lookup_insert_eq.
  - apply Default_Replicas.
Qed.

(** C6.  After [Default]: an unset upgrade strategy has become the automatic
    one and a set one is kept; the managed-by label is present, with the
    value [opentelemetry-operator] when it was absent and with its old value
    when that was not empty, and the other labels are kept; an unset replica
    count has become 1 and a set one is kept; no other field has changed. *)
Theorem Default_fills_what_is_unset (auto : string) (r : OpAMPBridge) :
  (UpgradeStrategy (Spec r) = ""
     → UpgradeStrategy (Spec (result (Default auto r))) = auto)
  ∧ (UpgradeStrategy (Spec r) ≠ ""
     → UpgradeStrategy (Spec (result (Default auto r))) = UpgradeStrategy (Spec r))
  ∧ is_Some (entries (Labels (result (Default auto r))) !! managedBy)
  ∧ (entries (Labels r) !! managedBy = None
     → entries (Labels (result (Default auto r))) !! managedBy
       = Some "opentelemetry-operator")
  ∧ (∀ v, entries (Labels r) !! managedBy = Some v → v ≠ ""
     → entries (Labels (result (Default auto r))) !! managedBy = Some v)
  ∧ (∀ k, k ≠ managedBy
     → entries (Labels (result (Default auto r))) !! k = entries (Labels r) !! k)
  ∧ (Replicas (Spec r) = None → Replicas (Spec (result (Default auto r))) = Some 1)
  ∧ (∀ n, Replicas (Spec r) = Some n
     → Replicas (Spec (result (Default auto r))) = Some n)
  ∧ setReplicas (Replicas (Spec r))
      (setUpgradeStrategy (UpgradeStrategy (Spec r))
         (setLabels (Labels r) (result (Default auto r)))) = r.
Proof.
  repeat split.
  - intros E. rewrite Default_UpgradeStrategy, E. reflexivity.
  - intros E. rewrite Default_UpgradeStrategy.
    destruct (UpgradeStrategy (Spec r)); [done | reflexivity].
  - rewrite Default_managedBy. eauto.
  - intros E. rewrite Default_managedBy. unfold index. rewrite E. reflexivity.
  - intros v E Hv. rewrite Default_managedBy. unfold index. rewrite E. cbn.
    destruct v; [done | reflexivity].
  - intros k Hk. rewrite Default_Labels. cbn. break_test; [| done].
    by rewrite lookup_insert_ne.
  - intros E. rewrite Default_Replicas, E. reflexivity.
  - intros n E. rewrite Default_Replicas, E. reflexivity.
  - apply Default_other_fields.
Qed.

(** [Default_fills_what_is_unset] on the bridge of the tests, where the
    three fields are unset. *)
Lemma Default_fills_what_is_unset_witness :
  UpgradeStrategy (Spec (result (Default "automatic" Samples.myInstance))) = "automatic"
  ∧ entries (Labels (result (Default "automatic" Samples.myInstance))) !! managedBy
    = Some "opentelemetry-operator"
  ∧ Replicas (Spec (result (Default "automatic" Samples.myInstance))) = Some 1.
Proof.
  destruct (Default_fills_what_is_unset "automatic" Samples.myInstance)
    as (Hu & _ & _ & Hl & _ & _ & Hr & _).
  split; [apply Hu; reflexivity |].
  split; [apply Hl; reflexivity | apply Hr; reflexivity].
Defined.

(** C10.  A managed-by label that is there with the empty string as its
    value is overwritten with [opentelemetry-operator], and [Default] gives
    the same resource as when the label is taken away first; after [Default]
    the managed-by label of no resource is the empty string. *)
Theorem Default_overwrites_empty_managedBy
    (auto : string) (r : OpAMPBridge) (m : gmap string string) :
  Labels r = Some m →
  m !! managedBy = Some "" →
  Labels (result (Default auto r)) = Some (<[managedBy := "opentelemetry-operator"]> m)
  ∧ result (Default auto r)
    = result (Default auto (setLabels (Some (delete managedBy m)) r))
  ∧ entries (Labels (result (Default auto r))) !! managedBy
    = Some "opentelemetry-operator"
  ∧ ∀ r' : OpAMPBridge,
      ∃ v, entries (Labels (result (Default auto r'))) !! managedBy = Some v ∧ v ≠ "".
Proof.
  intros Hl Hm.
  assert (Hi : index (Labels r) managedBy = "")
    by (unfold index; rewrite Hl; cbn; rewrite Hm; reflexivity).
  split; [| split; [| split; [| apply Default_managedBy_not_empty]]].
  - rewrite Default_Labels, Hi, Hl. reflexivity.
  - rewrite !Default_steps.
    unfold defaultReplicas, defaultManagedBy, makeLabels, defaultUpgradeStrategy.
    destruct r as [[nm ns l an] sp]; destruct sp; cbn in *. subst l.
    assert (Hd : index (Some (delete managedBy m)) managedBy = "")
      by (unfold index; cbn; rewrite lookup_delete_eq; reflexivity).
    destruct (String.length UpgradeStrategy0 =? 0)%nat; cbn -[index];
      rewrite Hi, Hd; cbn -[index]; unfold assign; cbn;
      rewrite insert_delete_eq; reflexivity.
  - rewrite Default_managedBy, Hi. reflexivity.
Qed.

(** [Default_overwrites_empty_managedBy] on a bridge whose only label is an
    empty managed-by label. *)
Lemma Default_overwrites_empty_managedBy_witness :
  Labels (result (Default "automatic" (Samples.labelled (Some {[managedBy := ""]}))))
  = Some (<[managedBy := "opentelemetry-operator"]> {[managedBy := ""]}).
Proof.
  refine (proj1 (Default_overwrites_empty_managedBy "automatic"
                   (Samples.labelled (Some {[managedBy := ""]})) {[managedBy := ""]}
                   _ _)).
  - reflexivity.
  - vm_compute. reflexivity.
Defined.

End DefaultProperties.

(** ** [strings.TrimSpace] *)
Module TrimSpaceProperties.

Import Strings Shape.

(** Split the boolean tests among the hypotheses into their cases. *)
Ltac bool_cases :=
  repeat match goal with
         | H : (_ || _) = true |- _ => apply orb_true_iff in H; destruct H as [H | H]
         | H : (_ && _) = true |- _ => apply andb_true_iff in H; destruct H as [? ?]
         | H : (_ =? _)%N = true |- _ => apply N.eqb_eq in H
         | H : (_ <=? _)%N = true |- _ => apply N.leb_le in H
         end.

Lemma append_assoc (s t u : string) : (s +:+ t) +:+ u = s +:+ (t +:+ u).
Proof.
  induction s as [| a s IH]; [reflexivity |].
  change (String a ((s +:+ t) +:+ u) = String a (s +:+ (t +:+ u))). by rewrite IH.
Qed.

Lemma rev_app_append (s t : string) : String.rev_app s t = String.rev s +:+ t.
Proof.
  unfold String.rev. revert t.
  induction s as [| a s IH]; intros t; cbn; [reflexivity |].
  rewrite (IH (String a "")), IH, append_assoc. reflexivity.
Qed.

Lemma rev_cons (a : ascii) (s : string) :
  String.rev (String a s) = String.rev s +:+ String a "".
Proof. unfold String.rev at 1. cbn. apply rev_app_append. Qed.

Lemma append_empty (s t : string) : s +:+ t = "" → s = "" ∧ t = "".
Proof. destruct s; cbn; [tauto | discriminate]. Qed.

Lemma rev_empty (s : string) : String.rev s = "" → s = "".
Proof.
  destruct s as [| a s]; [reflexivity |].
  rewrite rev_cons. intros [_ [=]]%append_empty.
Qed.

(** The first byte of a longer white-space rune is no white space of its
    own, and the first byte of a three-byte one starts no two-byte one. *)
Lemma space2_first (a b : ascii) : space2 a b = true → asciiSpace a = false.
Proof.
  unfold space2, asciiSpace. intros [Ha _]%andb_true_iff.
  apply N.eqb_eq in Ha. by rewrite Ha.
Qed.

Lemma space3_first (a b c : ascii) :
  space3 a b c = true → asciiSpace a = false ∧ ∀ b', space2 a b' = false.
Proof.
  unfold space3, space2, asciiSpace. intros H.
  assert (Ha : code a = 225%N ∨ code a = 226%N ∨ code a = 227%N)
    by (cbv zeta in H; bool_cases; auto).
  destruct Ha as [-> | [-> | ->]]; by split.
Qed.

(** The last byte of a white-space rune of several bytes is no white space
    of its own, and the last two bytes of a three-byte one are no two-byte
    one. *)
Lemma space2_last (a b : ascii) : space2 a b = true → asciiSpace b = false.
Proof.
  unfold space2, asciiSpace. intros [_ Hb]%andb_true_iff.
  apply orb_true_iff in Hb. destruct Hb as [Hb | Hb]; apply N.eqb_eq in Hb; by rewrite Hb.
Qed.

Lemma space3_last (a b c : ascii) :
  space3 a b c = true → asciiSpace c = false ∧ space2 b c = false.
Proof.
  unfold space3, space2, asciiSpace. intros H.
  assert (Hc : (128 ≤ code c)%N ∧ code b ≠ 194%N)
    by (cbv zeta in H; bool_cases; split; lia).
  destruct Hc as [Hc Hb]. split.
  - apply orb_false_iff. split.
    + apply andb_false_iff. right. apply N.leb_gt. lia.
    + apply N.eqb_neq. lia.
  - apply andb_false_iff. left. by apply N.eqb_neq.
Qed.

Lemma Blank_append (s t : string) : Blank s → Blank t → Blank (s +:+ t).
Proof.
  intros Hs Ht.
  induction Hs as [| a s Ha _ IH | a b s Hab _ IH | a b c s Habc _ IH]; [exact Ht | | |].
  - by apply (Blank_ascii a).
  - by apply (Blank_two a b).
  - by apply (Blank_three a b c).
Qed.

(** [TrimLeft] leaves nothing of a blank string, and of a blank string
    only. *)
Lemma TrimLeft_Blank (s : string) : Blank s → TrimLeft s = "".
Proof.
  induction 1 as [| a s Ha _ IH | a b s Hab _ IH | a b c s Habc _ IH].
  - reflexivity.
  - cbn. by rewrite Ha.
  - cbn. by rewrite (space2_first _ _ Hab), Hab.
  - destruct (space3_first _ _ _ Habc) as [Ha Hb]. cbn. by rewrite Ha, Hb, Habc.
Qed.

Lemma TrimLeft_cases (P : string → string → Prop) :
  P "" "" →
  (∀ a s, asciiSpace a = true → P s (TrimLeft s) → P (String a s) (TrimLeft s)) →
  (∀ a b s, asciiSpace a = false → space2 a b = true → P s (TrimLeft s)
            → P (String a (String b s)) (TrimLeft s)) →
  (∀ a b c s, asciiSpace a = false → space2 a b = false → space3 a b c = true
              → P s (TrimLeft s) → P (String a (String b (String c s))) (TrimLeft s)) →
  (∀ s, s ≠ "" → TrimLeft s = s → P s s) →
  ∀ s, P s (TrimLeft s).
Proof.
  intros H0 H1 H2 H3 Hstop s.
  assert (H : ∀ n s, (String.length s ≤ n)%nat → P s (TrimLeft s));
    [| by apply (H (String.length s))].
  clear s. induction n as [| n IH]; intros s Hn.
  - destruct s; [exact H0 | cbn in Hn; lia].
  - destruct s as [| a s1]; [exact H0 |]. cbn in Hn.
    cbn [TrimLeft]. destruct (asciiSpace a) eqn:Ha.
    { apply H1; [done |]. apply IH. lia. }
    destruct s1 as [| b s2].
    { apply Hstop; [done |]. cbn. by rewrite Ha. }
    cbn in Hn. destruct (space2 a b) eqn:Hab.
    { apply H2; [done.. |]. apply IH. lia. }
    destruct s2 as [| c s3].
    { apply Hstop; [done |]. cbn. by rewrite Ha, Hab. }
    cbn in Hn. destruct (space3 a b c) eqn:Habc.
    { apply H3; [done.. |]. apply IH. lia. }
    apply Hstop; [done |]. cbn. by rewrite Ha, Hab, Habc.
Qed.

Lemma TrimLeft_empty (s : string) : TrimLeft s = "" → Blank s.
Proof.
  apply (TrimLeft_cases (λ s t, t = "" → Blank s)); intros; subst;
    try (constructor; auto; done); done.
Qed.

Lemma TrimLeft_idempotent (s : string) : TrimLeft (TrimLeft s) = TrimLeft s.
Proof. by apply (TrimLeft_cases (λ s t, TrimLeft t = t)). Qed.

Lemma append_empty_r (s : string) : s +:+ "" = s.
Proof.
  induction s as [| a s IH]; [reflexivity |].
  change (String a (s +:+ "") = String a s). by rewrite IH.
Qed.

Lemma rev_append (s t : string) : String.rev (s +:+ t) = String.rev t +:+ String.rev s.
Proof.
  induction s as [| a s IH]; [by rewrite append_empty_r |].
  change (String.rev (String a (s +:+ t)) = String.rev t +:+ String.rev (String a s)).
  by rewrite !rev_cons, IH, append_assoc.
Qed.

Lemma rev_involutive (s : string) : String.rev (String.rev s) = s.
Proof.
  induction s as [| a s IH]; [reflexivity |].
  by rewrite rev_cons, rev_append, IH.
Qed.

(** The scan from the end leaves nothing of a blank string only. *)
Lemma TrimLeftRev_empty (x : string) : TrimLeftRev x = "" → Blank (String.rev x).
Proof.
  assert (H : ∀ n x, (String.length x ≤ n)%nat → TrimLeftRev x = ""
                     → Blank (String.rev x));
    [| by apply (H (String.length x))].
  clear x. induction n as [| n IH]; intros x Hn.
  - destruct x; [constructor | cbn in Hn; lia].
  - destruct x as [| a x1]; [constructor |]. cbn in Hn.
    cbn [TrimLeftRev]. destruct (asciiSpace a) eqn:Ha.
    { intros E. rewrite rev_cons.
      apply Blank_append; [apply IH; [lia | done] |].
      apply Blank_ascii; [done | constructor]. }
    destruct x1 as [| b x2]; [discriminate |]. cbn in Hn.
    destruct (space2 b a) eqn:Hba.
    { intros E. rewrite !rev_cons, append_assoc.
      apply Blank_append; [apply IH; [lia | done] |].
      apply (Blank_two b a); [done | constructor]. }
    destruct x2 as [| c x3]; [discriminate |]. cbn in Hn.
    destruct (space3 c b a) eqn:Hcba; [| discriminate].
    intros E. rewrite !rev_cons, !append_assoc.
    apply Blank_append; [apply IH; [lia | done] |].
    apply (Blank_three c b a); [done | constructor].
Qed.

(** [TrimSpace] leaves nothing exactly of the strings of white space only,
    the empty string among them. *)
Lemma TrimSpace_empty (s : string) : TrimSpace s = "" ↔ Blank s.
Proof.
  unfold TrimSpace, TrimRight. split.
  - intros E%rev_empty%TrimLeftRev_empty. rewrite rev_involutive in E.
    apply TrimLeft_empty. apply TrimLeft_Blank in E.
    by rewrite TrimLeft_idempotent in E.
  - intros E%TrimLeft_Blank. by rewrite E.
Qed.

Lemma TrimSpace_examples :
  TrimSpace "" = "" ∧ TrimSpace "   " = ""
  ∧ TrimSpace (String (ascii_of_nat 9) (String (ascii_of_nat 10) " ")) = ""
  ∧ TrimSpace (String (ascii_of_nat 194) (String (ascii_of_nat 160) "")) = ""
  ∧ TrimSpace (String (ascii_of_nat 226) (String (ascii_of_nat 128)
                 (String (ascii_of_nat 131) ""))) = ""
  ∧ TrimSpace "  ws://opamp  " = "ws://opamp"
  ∧ TrimSpace (String (ascii_of_nat 194) "") = String (ascii_of_nat 194) "".
Proof. repeat split; reflexivity. Qed.

End TrimSpaceProperties.

(** ** The validating webhook *)
Module ValidateProperties.

Import V1alpha1 Shape.

Lemma length_zero (s : string) : (String.length s =? 0)%nat = true ↔ s = "".
Proof. destruct s; cbn; split; congruence. Qed.

Lemma length_nonzero (s : string) : (String.length s =? 0)%nat = false ↔ s ≠ "".
Proof. destruct s; cbn; split; congruence. Qed.

(** The port number check is the range from 1 to 65535. *)
Lemma IsValidPortNum_nil (port : Z) :
  Validation.IsValidPortNum port = [] ↔ 1 ≤ port ≤ 65535.
Proof.
  unfold Validation.IsValidPortNum.
  destruct (1 <=? port) eqn:H1; destruct (port <=? 65535) eqn:H2; cbn;
    split; try discriminate; try lia; reflexivity.
Qed.

(** The error that the loop over the ports returns for the port [p]. *)
Lemma validatePorts_cons (p : Corev1.ServicePort) (ports : list Corev1.ServicePort) :
  validatePorts (p :: ports)
  = if decide (validPort p) then validatePorts ports
    else Some (Errorf
      "the OpAMPBridge Spec Ports configuration is incorrect, port name '%s' errors: %s, num '%d' errors: %s"
      [ArgString (Corev1.PortName p);
       ArgStrings (Validation.IsValidPortName (Corev1.PortName p));
       ArgInt (Corev1.Port p);
       ArgStrings (Validation.IsValidPortNum (Corev1.Port p))]).
Proof.
  cbn [validatePorts]. case_decide as H; unfold validPort in H.
  - destruct H as [Hn Hm]. by rewrite Hn, Hm.
  - destruct (Validation.IsValidPortName (Corev1.PortName p));
      destruct (Validation.IsValidPortNum (Corev1.Port p)); cbn;
      try reflexivity.
    by destruct H.
Qed.

(** The loop accepts exactly the lists of valid ports. *)
Lemma validatePorts_None (ports : list Corev1.ServicePort) :
  validatePorts ports = None ↔ Forall validPort ports.
Proof.
  induction ports as [| p ports IH]; [by split |].
  rewrite validatePorts_cons, Forall_cons. case_decide; [tauto |].
  split; [discriminate | tauto].
Qed.

(** The loop stops at the first port that is not valid, and its error is
    about that port. *)
Lemma validatePorts_Some (ports : list Corev1.ServicePort) (e : error) :
  validatePorts ports = Some e →
  ∃ good bad rest,
    ports = good ++ bad :: rest ∧ Forall validPort good ∧ ¬ validPort bad
    ∧ validatePorts [bad] = Some e
    ∧ Contains (format e) "Ports" = true
    ∧ args e !! 0%nat = Some (ArgString (Corev1.PortName bad))
    ∧ args e !! 2%nat = Some (ArgInt (Corev1.Port bad)).
Proof.
  induction ports as [| p ports IH]; [discriminate |].
  rewrite validatePorts_cons. case_decide as Hp.
  - intros (good & bad & rest & -> & Hg & Hb & He)%IH.
    exists (p :: good), bad, rest. by rewrite Forall_cons.
  - intros [= <-]. exists [], p, ports.
    rewrite validatePorts_cons, decide_False by done. by repeat split.
Qed.

(** The four checks of [validateCRDSpec], in their order. *)
Lemma validateCRDSpec_endpoint (r : OpAMPBridge) :
  Strings.TrimSpace (Endpoint (Spec r)) = "" →
  validateCRDSpec r = Some (Errorf "the OpAMP server endpoint is not specified" []).
Proof. intros E. unfold validateCRDSpec. by rewrite E. Qed.

Lemma validateCRDSpec_protocol (r : OpAMPBridge) :
  Strings.TrimSpace (Endpoint (Spec r)) ≠ "" →
  Strings.TrimSpace (Protocol (Spec r)) = "" →
  validateCRDSpec r
  = Some (Errorf "the transport for OpAMP server protocol is not specified" []).
Proof.
  intros E%length_nonzero P. unfold validateCRDSpec. by rewrite E, P.
Qed.

Lemma validateCRDSpec_capabilities (r : OpAMPBridge) :
  Strings.TrimSpace (Endpoint (Spec r)) ≠ "" →
  Strings.TrimSpace (Protocol (Spec r)) ≠ "" →
  Capabilities (Spec r) = [] →
  validateCRDSpec r
  = Some (Errorf "the capabilities supported by OpAMP Bridge are not specified" []).
Proof.
  intros E%length_nonzero P%length_nonzero C. unfold validateCRDSpec.
  by rewrite E, P, C.
Qed.

Lemma validateCRDSpec_ports (r : OpAMPBridge) :
  Strings.TrimSpace (Endpoint (Spec r)) ≠ "" →
  Strings.TrimSpace (Protocol (Spec r)) ≠ "" →
  Capabilities (Spec r) ≠ [] →
  validateCRDSpec r = validatePorts (Ports (Spec r)).
Proof.
  intros E%length_nonzero P%length_nonzero C. unfold validateCRDSpec.
  rewrite E, P. by destruct (Capabilities (Spec r)).
Qed.

(** [validateCRDSpec] returns an error exactly when one of the four checks
    fails. *)
Lemma validateCRDSpec_rejects (r : OpAMPBridge) :
  is_Some (validateCRDSpec r)
  ↔ Strings.TrimSpace (Endpoint (Spec r)) = ""
    ∨ Strings.TrimSpace (Protocol (Spec r)) = ""
    ∨ Capabilities (Spec r) = []
    ∨ ¬ Forall validPort (Ports (Spec r)).
Proof.
  destruct (decide (Strings.TrimSpace (Endpoint (Spec r)) = "")) as [E | E];
    [rewrite validateCRDSpec_endpoint by done; split; eauto |].
  destruct (decide (Strings.TrimSpace (Protocol (Spec r)) = "")) as [P | P];
    [rewrite validateCRDSpec_protocol by done; split; eauto |].
  destruct (decide (Capabilities (Spec r) = [])) as [C | C];
    [rewrite validateCRDSpec_capabilities by done; split; eauto |].
  rewrite validateCRDSpec_ports by done.
  rewrite <- validatePorts_None, <- not_eq_None_Some. tauto.
Qed.

(** The same with what [TrimSpace] tests spelt out: an endpoint or a protocol
    that is empty or of white space only. *)
Lemma validateCRDSpec_rejects_blank (r : OpAMPBridge) :
  is_Some (validateCRDSpec r)
  ↔ Blank (Endpoint (Spec r)) ∨ Blank (Protocol (Spec r))
    ∨ Capabilities (Spec r) = []
    ∨ ¬ Forall validPort (Ports (Spec r)).
Proof.
  rewrite validateCRDSpec_rejects, !TrimSpaceProperties.TrimSpace_empty. reflexivity.
Qed.

Lemma validateCRDSpec_blank_endpoint (r : OpAMPBridge) :
  Blank (Endpoint (Spec r)) →
  validateCRDSpec r = Some (Errorf "the OpAMP server endpoint is not specified" []).
Proof.
  intros E%TrimSpaceProperties.TrimSpace_empty. by apply validateCRDSpec_endpoint.
Qed.

(** Each of the three fixed messages names its field. *)
Lemma messages_name_the_field :
  Contains "the OpAMP server endpoint is not specified" "endpoint" = true
  ∧ Contains "the transport for OpAMP server protocol is not specified" "protocol" = true
  ∧ Contains "the capabilities supported by OpAMP Bridge are not specified" "capabilities"
    = true.
Proof. repeat split; reflexivity. Qed.

(** [ValidateCreate] writes one line to the log and returns [nil], whatever
    the resource. *)
Lemma ValidateCreate_nil (r : OpAMPBridge) :
  ValidateCreate r
  = ([Info opampbridgelog "validate create" [("name", Name r)]], None).
Proof. reflexivity. Qed.

(** C1.  [ValidateCreate] never rejects: for the bridge of the tests, whose
    endpoint is empty, [validateCRDSpec] returns the error that names the
    endpoint, and for a bridge with endpoint and protocol and no capability
    the error that names the capabilities, while [ValidateCreate] returns
    no error for either. *)
Theorem ValidateCreate_drops_the_error :
  validateCRDSpec Samples.myInstance
  = Some (Errorf "the OpAMP server endpoint is not specified" [])
  ∧ result (ValidateCreate Samples.myInstance) = None
  ∧ validateCRDSpec (Samples.bridge "ws://opamp:4320/v1/opamp" "wss" [] [])
    = Some (Errorf "the capabilities supported by OpAMP Bridge are not specified" [])
  ∧ result (ValidateCreate (Samples.bridge "ws://opamp:4320/v1/opamp" "wss" [] [])) = None
  ∧ ∀ r, result (ValidateCreate r) = None.
Proof. repeat split; vm_compute; reflexivity. Qed.

(** C9.  [ValidateUpdate] and [ValidateDelete] check nothing: they write
    their line to the log and return no error, whatever the resource and the
    old object. *)
Theorem ValidateUpdate_ValidateDelete_check_nothing
    (Object : Type) (r : OpAMPBridge) (old : Object) :
  ValidateUpdate r old
  = ([Info opampbridgelog "validate update" [("name", Name r)]], None)
  ∧ ValidateDelete r
    = ([Info opampbridgelog "validate delete" [("name", Name r)]], None).
Proof. split; reflexivity. Qed.

End ValidateProperties.

(** ** Label synthesis *)
Module LabelProperties.

Import LabelSynthesis.

Section Labels.

Variables component namespace name canonicalName : string.
Variable pinned : option string.
Variable filtered : string → bool.
Variable labels : GoMap.

Lemma SelectorLabels_component :
  SelectorLabels component namespace name !! componentKey = Some component.
Proof. apply lookup_insert_eq. Qed.

Lemma SelectorLabels_instance :
  SelectorLabels component namespace name !! instanceKey
  = Some (namespace +:+ "." +:+ name).
Proof.
  unfold SelectorLabels. rewrite lookup_insert_ne by done. apply lookup_insert_eq.
Qed.

Lemma SelectorLabels_managedBy :
  SelectorLabels component namespace name !! managedByKey = Some "opentelemetry-operator".
Proof.
  unfold SelectorLabels. rewrite !lookup_insert_ne by done. apply lookup_insert_eq.
Qed.

Lemma SelectorLabels_partOf :
  SelectorLabels component namespace name !! partOfKey = Some "opentelemetry".
Proof.
  unfold SelectorLabels. rewrite !lookup_insert_ne by done. apply lookup_insert_eq.
Qed.

(** The selector labels have the four keys and no other. *)
Lemma SelectorLabels_dom :
  dom (SelectorLabels component namespace name) = Shape.selectorKeys.
Proof.
  unfold SelectorLabels, Shape.selectorKeys.
  rewrite !dom_insert_L, dom_empty_L. set_solver.
Qed.

Lemma SelectorLabels_no_name : SelectorLabels component namespace name !! nameKey = None.
Proof. apply not_elem_of_dom. rewrite SelectorLabels_dom. by vm_compute. Qed.

Lemma SelectorLabels_no_version :
  SelectorLabels component namespace name !! versionKey = None.
Proof. apply not_elem_of_dom. rewrite SelectorLabels_dom. by vm_compute. Qed.

(** The selector labels are among the identity labels. *)
Lemma SelectorLabels_identityLabels :
  SelectorLabels component namespace name
  ⊆ identityLabels component namespace name canonicalName pinned.
Proof.
  unfold identityLabels.
  etrans; [| apply insert_subseteq].
  - apply insert_subseteq, SelectorLabels_no_version.
  - rewrite lookup_insert_ne by done. apply SelectorLabels_no_name.
Qed.

(** The selector labels are among the labels, whatever the resource carries
    and whatever is filtered. *)
Lemma SelectorLabels_Labels :
  SelectorLabels component namespace name
  ⊆ Labels component namespace name canonicalName pinned filtered labels.
Proof.
  unfold Labels. etrans; [apply SelectorLabels_identityLabels |].
  apply map_union_subseteq_l.
Qed.

(** The labels carry the name and the version, which the selector labels
    leave out. *)
Lemma Labels_name :
  Labels component namespace name canonicalName pinned filtered labels !! nameKey
  = Some canonicalName.
Proof.
  unfold Labels. apply lookup_union_Some_l. apply lookup_insert_eq.
Qed.

Lemma Labels_version :
  Labels component namespace name canonicalName pinned filtered labels !! versionKey
  = Some (versionOf pinned).
Proof.
  unfold Labels. apply lookup_union_Some_l. unfold identityLabels.
  rewrite lookup_insert_ne by done. apply lookup_insert_eq.
Qed.

(** A filtered key of the resource is no label, unless it is an identity
    key. *)
Lemma Labels_filtered (k : string) :
  filtered k = true →
  identityLabels component namespace name canonicalName pinned !! k = None →
  Labels component namespace name canonicalName pinned filtered labels !! k = None.
Proof.
  intros Hf Hi. unfold Labels, userLabels. apply lookup_union_None_2; [done |].
  apply map_lookup_filter_None. right. intros v _. cbn. by rewrite Hf.
Qed.

End Labels.

End LabelProperties.

(** ** The target-allocator [Deployment] *)
Module TargetallocatorProperties.

Import V1alpha1 Targetallocator.

Section Deployment.

Context {env : Env}.
Variable params : Manifests.Params.

Let otelcol := Manifests.OtelCol params.
Let name := TargetAllocator (OtelCol.Name otelcol).

(** The labels carry the name of the workload and the version. *)
Lemma TA_Labels_name (o : OtelCol.OpenTelemetryCollector) (n : string) :
  entries (Some (Labels o n)) !! LabelSynthesis.nameKey = Some n.
Proof. unfold Labels, entries, default. apply LabelProperties.Labels_name. Qed.

Lemma TA_Labels_version (o : OtelCol.OpenTelemetryCollector) (n : string) :
  entries (Some (Labels o n)) !! LabelSynthesis.versionKey
  = Some (LabelSynthesis.versionOf (pinnedVersion o)).
Proof. unfold Labels, entries, default. apply LabelProperties.Labels_version. Qed.

(** One map is the label set of the object, the selector and the label set
    of the pod template. *)
Lemma TA_Deployment_labels :
  Metav1.Labels (Appsv1.DeploymentMeta (result (Deployment params)))
  = Some (Labels otelcol name)
  ∧ Appsv1.selector (Appsv1.ofDeployment (result (Deployment params)))
    = Some (Labels otelcol name)
  ∧ Appsv1.podLabels (Appsv1.ofDeployment (result (Deployment params)))
    = Some (Labels otelcol name).
Proof.
  unfold Deployment. destruct (ConfigMap params) as [l [cm [e |]]]; by cbn.
Qed.

(** The managed container is the only container. *)
Lemma TA_Deployment_containers :
  Corev1.Containers (Appsv1.podSpec (Appsv1.ofDeployment (result (Deployment params))))
  = [result (Container (Manifests.Config params) (Manifests.Log params) otelcol)].
Proof.
  unfold Deployment. destruct (ConfigMap params) as [l [cm [e |]]]; by cbn.
Qed.

(** Neither the host-network flag nor the DNS policy is set. *)
Lemma TA_Deployment_network :
  Corev1.HostNetwork (Appsv1.podSpec (Appsv1.ofDeployment (result (Deployment params))))
  = false
  ∧ Corev1.DNSPolicy_ (Appsv1.podSpec (Appsv1.ofDeployment (result (Deployment params))))
    = "".
Proof.
  unfold Deployment. destruct (ConfigMap params) as [l [cm [e |]]]; by cbn.
Qed.

(** The annotations of the pod template are those of the config map that
    [ConfigMap] returned, when it returned no error. *)
Lemma Deployment_annotations_ok (log : list LogEntry) (cm : option Corev1.ConfigMap) :
  ConfigMap params = (log, (cm, None)) →
  Appsv1.podAnnotations (Appsv1.ofDeployment (result (Deployment params)))
  = Some (Annotations otelcol cm)
  ∧ written (Deployment params)
    = log ++ written (Container (Manifests.Config params) (Manifests.Log params) otelcol).
Proof.
  intros E. unfold Deployment. rewrite E. run_logged.
  split; [reflexivity | cbn; by rewrite app_nil_r].
Qed.

(** With a config map whose hash can be computed the checksum is there. *)
Lemma Annotations_with_hash (cm : Corev1.ConfigMap) (h : string) :
  configMapHash cm = Some h →
  Annotations otelcol (Some cm) !! configMapHashAnnotationKey = Some h.
Proof. intros E. unfold Annotations. rewrite E. apply lookup_insert_eq. Qed.

(** Without a config map the annotations are those of the resource. *)
Lemma Annotations_nil :
  Annotations otelcol None = entries (OtelCol.Annotations otelcol).
Proof. reflexivity. Qed.

End Deployment.

(** C8, as it is stated, fails: for a collector that itself carries an
    annotation under the checksum key, [ConfigMap] fails, the failure is
    written to the log, and the annotations of the pod template still have
    the checksum key, with the value the resource gave it. *)
Lemma Deployment_keeps_own_checksum_annotation :
  snd (result (@ConfigMap Samples.failingTA
                 (Samples.params
                    (Samples.collector []
                       (Some {[ "opentelemetry-targetallocator-config/hash" := "stale" ]})))))
  = Some (Errorf "no config" [])
  ∧ written (@Deployment Samples.failingTA
               (Samples.params
                  (Samples.collector []
                     (Some {[ "opentelemetry-targetallocator-config/hash" := "stale" ]}))))
    = [Info "test" "failed to construct target allocator config map for annotations" []]
  ∧ entries (Appsv1.podAnnotations
               (Appsv1.ofDeployment
                  (result (@Deployment Samples.failingTA
                             (Samples.params
                                (Samples.collector []
                                   (Some {[ "opentelemetry-targetallocator-config/hash"
                                            := "stale" ]})))))))
    !! @configMapHashAnnotationKey Samples.failingTA
    = Some "stale".
Proof. repeat split; vm_compute; reflexivity. Qed.

(** C8, as the code has it.  When [ConfigMap] returns an error, [Deployment]
    writes the failure to the log and still returns its manifest, every
    field of it: the name, the namespace, the labels, the replica count, the
    selector, the labels of the pod template, the service account, the
    managed container, the volumes, the node selector and the topology
    spread constraints are what they are without the error, and the manifest
    is the one built when [ConfigMap] returns no config map and no error.
    The annotations of the pod template are those built from no config map,
    which are the annotations of the resource with no checksum added: the
    checksum key is among them exactly when the resource itself carries it,
    with the resource's value. *)
Theorem Deployment_survives_ConfigMap_error
    (env : Env) (params : Manifests.Params)
    (log : list LogEntry) (cm : option Corev1.ConfigMap) (e : error) :
  ConfigMap params = (log, (cm, Some e)) →
  written (Deployment params)
  = log
    ++ [Info (Manifests.Log params)
          "failed to construct target allocator config map for annotations" []]
    ++ written (Container (Manifests.Config params) (Manifests.Log params)
                  (Manifests.OtelCol params))
  ∧ result (Deployment params)
    = {| Appsv1.DeploymentMeta :=
           {| Metav1.Name := TargetAllocator (OtelCol.Name (Manifests.OtelCol params));
              Metav1.Namespace := OtelCol.Namespace (Manifests.OtelCol params);
              Metav1.Labels :=
                Some (Labels (Manifests.OtelCol params)
                        (TargetAllocator (OtelCol.Name (Manifests.OtelCol params))));
              Metav1.Annotations := None |};
         Appsv1.Spec :=
           {| Appsv1.Replicas :=
                OtelCol.Replicas
                  (OtelCol.TargetAllocator (OtelCol.spec (Manifests.OtelCol params)));
              Appsv1.Selector :=
                {| Metav1.MatchLabels :=
                     Some (Labels (Manifests.OtelCol params)
                             (TargetAllocator (OtelCol.Name (Manifests.OtelCol params)))) |};
              Appsv1.Template :=
                {| Corev1.TemplateMeta :=
                     {| Metav1.Name := "";
                        Metav1.Namespace := "";
                        Metav1.Labels :=
                          Some (Labels (Manifests.OtelCol params)
                                  (TargetAllocator
                                     (OtelCol.Name (Manifests.OtelCol params))));
                        Metav1.Annotations :=
                          Some (Annotations (Manifests.OtelCol params) None) |};
                   Corev1.TemplateSpec :=
                     {| Corev1.ServiceAccountName :=
                          ServiceAccountName (Manifests.OtelCol params);
                        Corev1.InitContainers := [];
                        Corev1.Containers :=
                          [result (Container (Manifests.Config params)
                                     (Manifests.Log params) (Manifests.OtelCol params))];
                        Corev1.Volumes :=
                          Volumes (Manifests.Config params) (Manifests.OtelCol params);
                        Corev1.Tolerations := [];
                        Corev1.NodeSelector :=
                          OtelCol.NodeSelector
                            (OtelCol.TargetAllocator
                               (OtelCol.spec (Manifests.OtelCol params)));
                        Corev1.HostNetwork := false;
                        Corev1.DNSPolicy_ := "";
                        Corev1.SecurityContext := None;
                        Corev1.PriorityClassName := "";
                        Corev1.Affinity_ := None;
                        Corev1.TopologySpreadConstraints :=
                          OtelCol.TopologySpreadConstraints
                            (OtelCol.TargetAllocator
                               (OtelCol.spec (Manifests.OtelCol params))) |} |} |} |}
  ∧ result (Deployment params)
    = result (@Deployment (Outcome.withConfigMap env (λ _, mret (None, None))) params)
  ∧ entries (Appsv1.podAnnotations (Appsv1.ofDeployment (result (Deployment params))))
    = entries (OtelCol.Annotations (Manifests.OtelCol params))
  ∧ entries (Appsv1.podAnnotations (Appsv1.ofDeployment (result (Deployment params))))
    !! configMapHashAnnotationKey
    = entries (OtelCol.Annotations (Manifests.OtelCol params)) !! configMapHashAnnotationKey.
Proof.
  intros E.
  assert (Hr : result (Deployment params)
               = result (@Deployment (Outcome.withConfigMap env (λ _, mret (None, None)))
                           params))
    by (unfold Deployment; cbn [ConfigMap Outcome.withConfigMap]; rewrite E; reflexivity).
  split; [unfold Deployment; rewrite E; run_logged; cbn; by rewrite app_nil_r |].
  split; [unfold Deployment; rewrite E; reflexivity |].
  split; [exact Hr |].
  assert (Ha : Appsv1.podAnnotations (Appsv1.ofDeployment (result (Deployment params)))
               = Some (Annotations (Manifests.OtelCol params) None))
    by (unfold Deployment; rewrite E; reflexivity).
  split; by rewrite Ha.
Qed.

(** [Deployment_survives_ConfigMap_error] on a package whose [ConfigMap]
    fails, for a collector without annotations: the failure is in the log
    and no checksum is among the annotations of the pod template. *)
Lemma Deployment_survives_ConfigMap_error_witness :
  written (@Deployment Samples.failingTA (Samples.params (Samples.collector [] None)))
  = [Info "test" "failed to construct target allocator config map for annotations" []]
  ∧ entries (Appsv1.podAnnotations
               (Appsv1.ofDeployment
                  (result (@Deployment Samples.failingTA
                             (Samples.params (Samples.collector [] None))))))
    !! "opentelemetry-targetallocator-config/hash" = None.
Proof.
  destruct (Deployment_survives_ConfigMap_error Samples.failingTA
              (Samples.params (Samples.collector [] None))
              [] None (Errorf "no config" []) eq_refl)
    as (Hw & _ & _ & _ & Hk).
  split; [exact Hw | exact Hk].
Defined.

(** C3.  The selector of the target-allocator [Deployment] is the whole label
    set, the one of the pod template: it carries the name and the version
    besides the four selector keys.  For the collector [my-instance] of
    [my-namespace] it has six keys. *)
Theorem Deployment_selector_is_the_label_set (env : Env) (params : Manifests.Params) :
  Appsv1.selector (Appsv1.ofDeployment (result (Deployment params)))
  = Appsv1.podLabels (Appsv1.ofDeployment (result (Deployment params)))
  ∧ entries (Appsv1.selector (Appsv1.ofDeployment (result (Deployment params))))
    !! LabelSynthesis.nameKey
    = Some (TargetAllocator (OtelCol.Name (Manifests.OtelCol params)))
  ∧ entries (Appsv1.selector (Appsv1.ofDeployment (result (Deployment params))))
    !! LabelSynthesis.versionKey
    = Some (LabelSynthesis.versionOf (pinnedVersion (Manifests.OtelCol params)))
  ∧ dom (entries (Appsv1.selector (Appsv1.ofDeployment (result (Deployment params)))))
    ≠ Shape.selectorKeys
  ∧ size (entries (Appsv1.selector
                     (Appsv1.ofDeployment
                        (result (@Deployment Samples.sampleTA
                                   (Samples.params (Samples.collector [] None)))))))
    = 6%nat.
Proof.
  destruct (TA_Deployment_labels params) as (_ & Hs & Hp).
  assert (Hn : entries (Appsv1.selector (Appsv1.ofDeployment (result (Deployment params))))
               !! LabelSynthesis.nameKey
               = Some (TargetAllocator (OtelCol.Name (Manifests.OtelCol params))))
    by (rewrite Hs; apply TA_Labels_name).
  split; [by rewrite Hs, Hp |].
  split; [exact Hn |].
  split; [rewrite Hs; apply TA_Labels_version |].
  split; [| by vm_compute].
  intros Hd.
  assert (Hin : LabelSynthesis.nameKey ∈ Shape.selectorKeys)
    by (rewrite <- Hd; apply elem_of_dom; rewrite Hn; eauto).
  revert Hin. by vm_compute.
Qed.

End TargetallocatorProperties.

(** ** The collector [DaemonSet] *)
Module CollectorProperties.

Import V1alpha1 Collector.

Section DaemonSet.

Context {env : Env}.
Variable params : Manifests.Params.

Let otelcol := Manifests.OtelCol params.
Let managed :=
  result (Container (Manifests.Config params) (Manifests.Log params) otelcol true).

(** The selector is [SelectorLabels], the labels of the pod template are
    [Labels]. *)
Lemma DaemonSet_labels :
  Appsv1.selector (Appsv1.ofDaemonSet (result (DaemonSet params)))
  = Some (SelectorLabels otelcol)
  ∧ Appsv1.podLabels (Appsv1.ofDaemonSet (result (DaemonSet params)))
    = Some (Labels otelcol (CollectorName (OtelCol.Name otelcol))
              (Config.LabelsFilter (Manifests.Config params))).
Proof. split; reflexivity. Qed.

(** The selector has the four selector keys, with their values. *)
Lemma DaemonSet_selector :
  dom (entries (Appsv1.selector (Appsv1.ofDaemonSet (result (DaemonSet params)))))
  = Shape.selectorKeys
  ∧ entries (Appsv1.selector (Appsv1.ofDaemonSet (result (DaemonSet params))))
    !! LabelSynthesis.instanceKey
    = Some (OtelCol.Namespace otelcol +:+ "." +:+ OtelCol.Name otelcol)
  ∧ entries (Appsv1.selector (Appsv1.ofDaemonSet (result (DaemonSet params))))
    !! LabelSynthesis.componentKey = Some component.
Proof.
  destruct DaemonSet_labels as [-> _]. unfold entries, default, SelectorLabels.
  split; [apply LabelProperties.SelectorLabels_dom |].
  split; [apply LabelProperties.SelectorLabels_instance |].
  apply LabelProperties.SelectorLabels_component.
Qed.

(** [append(otelcol.Spec.AdditionalContainers, Container(...))]: the
    additional containers, then the managed one. *)
Lemma DaemonSet_containers :
  Corev1.Containers (Appsv1.podSpec (Appsv1.ofDaemonSet (result (DaemonSet params))))
  = OtelCol.AdditionalContainers (OtelCol.spec otelcol) ++ [managed].
Proof. reflexivity. Qed.

(** The host-network flag is the one of the resource, the DNS policy the one
    [getDNSPolicy] derives from it. *)
Lemma DaemonSet_network :
  Corev1.HostNetwork (Appsv1.podSpec (Appsv1.ofDaemonSet (result (DaemonSet params))))
  = OtelCol.HostNetwork (OtelCol.spec otelcol)
  ∧ Corev1.DNSPolicy_ (Appsv1.podSpec (Appsv1.ofDaemonSet (result (DaemonSet params))))
    = getDNSPolicy otelcol.
Proof. split; reflexivity. Qed.

End DaemonSet.

End CollectorProperties.

(** ** The bridge [Deployment] *)
Module OpampbridgeProperties.

Import V1alpha1 Opampbridge.

Section Deployment.

Context {env : Env}.
Variable cfg : Config.Config.
Variable logger : string.
Variable opampBridge : OpAMPBridge.

Lemma Bridge_Deployment_labels :
  Appsv1.selector (Appsv1.ofDeployment (result (Deployment cfg logger opampBridge)))
  = Some (SelectorLabels opampBridge)
  ∧ Appsv1.podLabels (Appsv1.ofDeployment (result (Deployment cfg logger opampBridge)))
    = Some (Labels opampBridge (OpAMPBridgeName (Name opampBridge))
              (Config.LabelsFilter cfg)).
Proof. split; reflexivity. Qed.

Lemma Bridge_Deployment_selector :
  dom (entries (Appsv1.selector
                  (Appsv1.ofDeployment (result (Deployment cfg logger opampBridge)))))
  = Shape.selectorKeys.
Proof.
  destruct Bridge_Deployment_labels as [-> _]. unfold entries, default, SelectorLabels.
  apply LabelProperties.SelectorLabels_dom.
Qed.

Lemma Bridge_Deployment_containers :
  Corev1.Containers
    (Appsv1.podSpec (Appsv1.ofDeployment (result (Deployment cfg logger opampBridge))))
  = [result (Container cfg logger opampBridge)].
Proof. reflexivity. Qed.

Lemma Bridge_Deployment_network :
  Corev1.HostNetwork
    (Appsv1.podSpec (Appsv1.ofDeployment (result (Deployment cfg logger opampBridge))))
  = HostNetwork (Spec opampBridge)
  ∧ Corev1.DNSPolicy_
      (Appsv1.podSpec (Appsv1.ofDeployment (result (Deployment cfg logger opampBridge))))
    = getDNSPolicy opampBridge.
Proof. split; reflexivity. Qed.

End Deployment.

(** The scenario of [TestDeploymentNewDefault]: the name of the workload, its
    one container, the six labels of the pod template and the four labels of
    the selector. *)
Lemma Deployment_myInstance :
  Metav1.Name
    (Appsv1.DeploymentMeta
       (result (@Deployment Samples.sampleBridge (Config.Build_Config []) "test"
                  Samples.myInstance)))
  = "my-instance-opamp-bridge"
  ∧ length
      (Corev1.Containers
         (Appsv1.podSpec
            (Appsv1.ofDeployment
               (result (@Deployment Samples.sampleBridge (Config.Build_Config []) "test"
                          Samples.myInstance)))))
    = 1%nat
  ∧ Appsv1.podLabels
      (Appsv1.ofDeployment
         (result (@Deployment Samples.sampleBridge (Config.Build_Config []) "test"
                    Samples.myInstance)))
    = Some (list_to_map
              [("app.kubernetes.io/component", "opentelemetry-opamp-bridge");
               ("app.kubernetes.io/instance", "my-namespace.my-instance");
               ("app.kubernetes.io/managed-by", "opentelemetry-operator");
               ("app.kubernetes.io/name", "my-instance-opamp-bridge");
               ("app.kubernetes.io/part-of", "opentelemetry");
               ("app.kubernetes.io/version", "latest")])
  ∧ Appsv1.selector
      (Appsv1.ofDeployment
         (result (@Deployment Samples.sampleBridge (Config.Build_Config []) "test"
                    Samples.myInstance)))
    = Some (list_to_map
              [("app.kubernetes.io/component", "opentelemetry-opamp-bridge");
               ("app.kubernetes.io/instance", "my-namespace.my-instance");
               ("app.kubernetes.io/managed-by", "opentelemetry-operator");
               ("app.kubernetes.io/part-of", "opentelemetry")]).
Proof. repeat split; vm_compute; reflexivity. Qed.

End OpampbridgeProperties.

(** ** The three compilers together *)
Module CompilerProperties.

Import V1alpha1.

Lemma selectorWithinPodLabels_lookup (w : Appsv1.Workload) :
  Shape.selectorWithinPodLabels w
  ↔ ∀ k v, entries (Appsv1.selector w) !! k = Some v
           → entries (Appsv1.podLabels w) !! k = Some v.
Proof. apply map_subseteq_spec. Qed.

(** C2.  In the manifest of each compiler, every key of the selector is a
    label of the pod template with the same value. *)
Theorem selector_within_pod_labels :
  (∀ (env : Targetallocator.Env) (params : Manifests.Params),
     Shape.selectorWithinPodLabels
       (Appsv1.ofDeployment (result (Targetallocator.Deployment params))))
  ∧ (∀ (env : Collector.Env) (params : Manifests.Params),
       Shape.selectorWithinPodLabels
         (Appsv1.ofDaemonSet (result (Collector.DaemonSet params))))
  ∧ (∀ (env : Opampbridge.Env) (cfg : Config.Config) (logger : string)
       (opampBridge : OpAMPBridge),
       Shape.selectorWithinPodLabels
         (Appsv1.ofDeployment (result (Opampbridge.Deployment cfg logger opampBridge)))).
Proof.
  unfold Shape.selectorWithinPodLabels. split; [| split].
  - intros env params.
    destruct (TargetallocatorProperties.TA_Deployment_labels params) as (_ & -> & ->).
    reflexivity.
  - intros env params.
    destruct (CollectorProperties.DaemonSet_labels params) as (-> & ->).
    unfold entries, default, Collector.SelectorLabels, Collector.Labels.
    apply LabelProperties.SelectorLabels_Labels.
  - intros env cfg logger opampBridge.
    destruct (OpampbridgeProperties.Bridge_Deployment_labels cfg logger opampBridge) as (-> & ->).
    unfold entries, default, Opampbridge.SelectorLabels, Opampbridge.Labels.
    apply LabelProperties.SelectorLabels_Labels.
Qed.

(** C4, as the code has it.  The target-allocator [Deployment] has the managed
    container and no other.  In the collector [DaemonSet] the additional
    containers of the resource come first, in their order, and the managed
    container is the last one, at the index that is their number. *)
Theorem managed_container_position :
  (∀ (env : Targetallocator.Env) (params : Manifests.Params),
     Corev1.Containers
       (Appsv1.podSpec (Appsv1.ofDeployment (result (Targetallocator.Deployment params))))
     = [result (Targetallocator.Container (Manifests.Config params) (Manifests.Log params)
                  (Manifests.OtelCol params))])
  ∧ (∀ (env : Collector.Env) (params : Manifests.Params),
       take (length (OtelCol.AdditionalContainers (OtelCol.spec (Manifests.OtelCol params))))
         (Corev1.Containers
            (Appsv1.podSpec (Appsv1.ofDaemonSet (result (Collector.DaemonSet params)))))
       = OtelCol.AdditionalContainers (OtelCol.spec (Manifests.OtelCol params))
       ∧ Corev1.Containers
           (Appsv1.podSpec (Appsv1.ofDaemonSet (result (Collector.DaemonSet params))))
         !! length (OtelCol.AdditionalContainers (OtelCol.spec (Manifests.OtelCol params)))
         = Some (result (Collector.Container (Manifests.Config params)
                           (Manifests.Log params) (Manifests.OtelCol params) true))
       ∧ length
           (Corev1.Containers
              (Appsv1.podSpec (Appsv1.ofDaemonSet (result (Collector.DaemonSet params)))))
         = S (length (OtelCol.AdditionalContainers
                        (OtelCol.spec (Manifests.OtelCol params))))).
Proof.
  split.
  - intros env params. apply TargetallocatorProperties.TA_Deployment_containers.
  - intros env params. rewrite CollectorProperties.DaemonSet_containers.
    split; [by rewrite take_app_length |].
    split; [by rewrite list_lookup_middle |].
    rewrite length_app. cbn. lia.
Qed.

(** C4, as it is stated, fails: with one additional container, [sidecar], the
    container at index 0 of the [DaemonSet] is [sidecar] and the managed
    container is at index 1. *)
Lemma DaemonSet_additional_container_first :
  Corev1.Containers
    (Appsv1.podSpec
       (Appsv1.ofDaemonSet
          (result (@Collector.DaemonSet Samples.sampleCollector
                     (Samples.params (Samples.collector [Samples.sidecar] None))))))
  !! 0%nat
  ≠ Some (result (@Collector.Container Samples.sampleCollector
                    (Config.Build_Config []) "test"
                    (Samples.collector [Samples.sidecar] None) true))
  ∧ Corev1.Containers
      (Appsv1.podSpec
         (Appsv1.ofDaemonSet
            (result (@Collector.DaemonSet Samples.sampleCollector
                       (Samples.params (Samples.collector [Samples.sidecar] None))))))
    = [Samples.sidecar; Samples.managed].
Proof. split; [discriminate | reflexivity]. Qed.

(** C7, as it is stated, fails: the pod of the target-allocator [Deployment]
    is not host-networked and its DNS policy is not [ClusterFirst]; it is
    left empty. *)
Lemma Targetallocator_dns_policy_unset :
  Corev1.HostNetwork
    (Appsv1.podSpec
       (Appsv1.ofDeployment
          (result (@Targetallocator.Deployment Samples.sampleTA
                     (Samples.params (Samples.collector [] None))))))
  = false
  ∧ Corev1.DNSPolicy_
      (Appsv1.podSpec
         (Appsv1.ofDeployment
            (result (@Targetallocator.Deployment Samples.sampleTA
                       (Samples.params (Samples.collector [] None))))))
    ≠ Corev1.DNSClusterFirst.
Proof. split; [reflexivity | discriminate]. Qed.

(** C7, as the code has it.  In the collector [DaemonSet] and in the bridge
    [Deployment] the host-network flag of the pod is the one of the resource,
    and the DNS policy is [ClusterFirstWithHostNet] when the flag is true and
    [ClusterFirst] when it is false.  The target-allocator [Deployment] sets
    neither: the flag is false and the policy is empty. *)
Theorem dns_policy_follows_host_network :
  (∀ (env : Targetallocator.Env) (params : Manifests.Params),
     Corev1.HostNetwork
       (Appsv1.podSpec (Appsv1.ofDeployment (result (Targetallocator.Deployment params))))
     = false
     ∧ Corev1.DNSPolicy_
         (Appsv1.podSpec (Appsv1.ofDeployment (result (Targetallocator.Deployment params))))
       = "")
  ∧ (∀ (env : Collector.Env) (params : Manifests.Params),
     Corev1.HostNetwork
       (Appsv1.podSpec (Appsv1.ofDaemonSet (result (Collector.DaemonSet params))))
     = OtelCol.HostNetwork (OtelCol.spec (Manifests.OtelCol params))
     ∧ Corev1.DNSPolicy_
         (Appsv1.podSpec (Appsv1.ofDaemonSet (result (Collector.DaemonSet params))))
       = if Corev1.HostNetwork
              (Appsv1.podSpec (Appsv1.ofDaemonSet (result (Collector.DaemonSet params))))
         then "ClusterFirstWithHostNet" else "ClusterFirst")
  ∧ (∀ (env : Opampbridge.Env) (cfg : Config.Config) (logger : string)
       (opampBridge : OpAMPBridge),
       Corev1.HostNetwork
         (Appsv1.podSpec
            (Appsv1.ofDeployment (result (Opampbridge.Deployment cfg logger opampBridge))))
       = HostNetwork (Spec opampBridge)
       ∧ Corev1.DNSPolicy_
           (Appsv1.podSpec
              (Appsv1.ofDeployment (result (Opampbridge.Deployment cfg logger opampBridge))))
         = if Corev1.HostNetwork
                (Appsv1.podSpec
                   (Appsv1.ofDeployment
                      (result (Opampbridge.Deployment cfg logger opampBridge))))
           then "ClusterFirstWithHostNet" else "ClusterFirst").
Proof.
  split; [| split].
  - intros env params. apply TargetallocatorProperties.TA_Deployment_network.
  - intros env params.
    destruct (CollectorProperties.DaemonSet_network params) as (-> & ->).
    split; [reflexivity |]. unfold Collector.getDNSPolicy. by break_test.
  - intros env cfg logger opampBridge.
    destruct (OpampbridgeProperties.Bridge_Deployment_network cfg logger opampBridge) as (-> & ->).
    split; [reflexivity |]. unfold Opampbridge.getDNSPolicy. by break_test.
Qed.

End CompilerProperties.

(** * Further properties of the code *)

(** ** [validateCRDSpec] and [Default] *)
Module WebhookCoverage.

Import V1alpha1 Shape Outcome.

(** The loop over two lists of ports in a row: the second is looked at only
    when the first has no invalid port. *)
Lemma validatePorts_app (ports ports' : list Corev1.ServicePort) :
  validatePorts (ports ++ ports')
  = match validatePorts ports with
    | Some e => Some e
    | None => validatePorts ports'
    end.
Proof.
  induction ports as [| p ports IH]; [reflexivity |].
  change ((p :: ports) ++ ports') with (p :: (ports ++ ports')).
  rewrite !ValidateProperties.validatePorts_cons. by case_decide.
Qed.

(** [validateCRDSpec] reads the endpoint, the protocol, the capabilities and
    the ports, and nothing else. *)
Lemma validateCRDSpec_frame (r r' : OpAMPBridge) :
  Endpoint (Spec r) = Endpoint (Spec r') →
  Protocol (Spec r) = Protocol (Spec r') →
  Capabilities (Spec r) = Capabilities (Spec r') →
  Ports (Spec r) = Ports (Spec r') →
  validateCRDSpec r = validateCRDSpec r'.
Proof. intros E P C Q. unfold validateCRDSpec. by rewrite E, P, C, Q. Qed.

(** [Default] leaves the four fields that [validateCRDSpec] reads. *)
Lemma Default_validated_fields (auto : string) (r : OpAMPBridge) :
  Endpoint (Spec (result (Default auto r))) = Endpoint (Spec r)
  ∧ Protocol (Spec (result (Default auto r))) = Protocol (Spec r)
  ∧ Capabilities (Spec (result (Default auto r))) = Capabilities (Spec r)
  ∧ Ports (Spec (result (Default auto r))) = Ports (Spec r).
Proof.
  pose proof (DefaultProperties.Default_other_fields auto r) as H.
  repeat split.
  - exact (f_equal (λ x, Endpoint (Spec x)) H).
  - exact (f_equal (λ x, Protocol (Spec x)) H).
  - exact (f_equal (λ x, Capabilities (Spec x)) H).
  - exact (f_equal (λ x, Ports (Spec x)) H).
Qed.

(** X1.  [validateCRDSpec] returns no error exactly when the endpoint and the
    protocol are neither empty nor of white space only, there is a
    capability, and every port is valid. *)
Theorem validateCRDSpec_accepts (r : OpAMPBridge) :
  validateCRDSpec r = None
  ↔ ¬ Blank (Endpoint (Spec r)) ∧ ¬ Blank (Protocol (Spec r))
    ∧ Capabilities (Spec r) ≠ []
    ∧ Forall validPort (Ports (Spec r)).
Proof.
  rewrite eq_None_not_Some, ValidateProperties.validateCRDSpec_rejects_blank.
  destruct (decide (Forall validPort (Ports (Spec r)))); tauto.
Qed.

(** X2.  The first check that fails decides the error, whatever the fields
    that the later checks read: a blank endpoint gives the endpoint error;
    with an endpoint, a blank protocol gives the protocol error; with both,
    an empty capability list gives the capabilities error; with all three,
    the result is that of the loop over the ports, whose error is about the
    ports. *)
Theorem validateCRDSpec_first_failure (r : OpAMPBridge) :
  (Blank (Endpoint (Spec r)) → validateCRDSpec r = Some endpointError)
  ∧ (¬ Blank (Endpoint (Spec r)) → Blank (Protocol (Spec r))
     → validateCRDSpec r = Some protocolError)
  ∧ (¬ Blank (Endpoint (Spec r)) → ¬ Blank (Protocol (Spec r))
     → Capabilities (Spec r) = []
     → validateCRDSpec r = Some capabilitiesError)
  ∧ (¬ Blank (Endpoint (Spec r)) → ¬ Blank (Protocol (Spec r))
     → Capabilities (Spec r) ≠ []
     → validateCRDSpec r = validatePorts (Ports (Spec r))
       ∧ ∀ e, validatePorts (Ports (Spec r)) = Some e
              → Contains (format e) "Ports" = true).
Proof.
  rewrite <- !TrimSpaceProperties.TrimSpace_empty. repeat split.
  - apply ValidateProperties.validateCRDSpec_endpoint.
  - apply ValidateProperties.validateCRDSpec_protocol.
  - apply ValidateProperties.validateCRDSpec_capabilities.
  - by apply ValidateProperties.validateCRDSpec_ports.
  - intros e (good & bad & rest & _ & _ & _ & _ & Hc & _)%ValidateProperties.validatePorts_Some.
    exact Hc.
Qed.

(** [validateCRDSpec_first_failure] on a bridge where every check would
    fail: the error is the one of the endpoint. *)
Lemma validateCRDSpec_first_failure_witness :
  validateCRDSpec
    (Samples.bridge "  " "" [] [{| Corev1.PortName := "-"; Corev1.Port := 0 |}])
  = Some endpointError.
Proof.
  apply (proj1 (validateCRDSpec_first_failure
                  (Samples.bridge "  " "" []
                     [{| Corev1.PortName := "-"; Corev1.Port := 0 |}]))).
  apply TrimSpaceProperties.TrimSpace_empty. reflexivity.
Defined.

(** X3.  The loop over the ports returns an error exactly when a port is not
    valid, and the error is the one of the first such port: it carries the
    name and the number of that port and the problems found with them, and
    the ports after it are not looked at. *)
Theorem validatePorts_first_invalid (ports : list Corev1.ServicePort) (e : error) :
  validatePorts ports = Some e
  ↔ ∃ good bad rest,
      ports = good ++ bad :: rest ∧ Forall validPort good ∧ ¬ validPort bad
      ∧ e = portError bad.
Proof.
  split.
  - intros (good & bad & rest & -> & Hg & Hb & He & _)%ValidateProperties.validatePorts_Some.
    exists good, bad, rest. repeat split; [done.. |].
    rewrite ValidateProperties.validatePorts_cons, decide_False in He by done.
    by injection He.
  - intros (good & bad & rest & -> & Hg & Hb & ->). rewrite validatePorts_app.
    apply ValidateProperties.validatePorts_None in Hg. rewrite Hg.
    rewrite ValidateProperties.validatePorts_cons. by rewrite decide_False.
Qed.

(** [validatePorts_first_invalid] on three ports, the second and the third
    of which are not valid. *)
Lemma validatePorts_first_invalid_witness :
  validatePorts
    [{| Corev1.PortName := "opamp"; Corev1.Port := 4320 |};
     {| Corev1.PortName := "metrics"; Corev1.Port := 65536 |};
     {| Corev1.PortName := "Bad--"; Corev1.Port := 0 |}]
  = Some (portError {| Corev1.PortName := "metrics"; Corev1.Port := 65536 |}).
Proof.
  apply (proj2 (validatePorts_first_invalid _ _)).
  exists [{| Corev1.PortName := "opamp"; Corev1.Port := 4320 |}],
    {| Corev1.PortName := "metrics"; Corev1.Port := 65536 |},
    [{| Corev1.PortName := "Bad--"; Corev1.Port := 0 |}].
  split; [reflexivity |]. split; [repeat constructor |].
  split; [| reflexivity]. intros [_ H]. discriminate H.
Defined.

(** X4.  Defaulting does not change what validation says: [validateCRDSpec]
    returns for the defaulted resource what it returns for the resource. *)
Theorem Default_keeps_validation (auto : string) (r : OpAMPBridge) :
  validateCRDSpec (result (Default auto r)) = validateCRDSpec r.
Proof.
  destruct (Default_validated_fields auto r) as (E & P & C & Q).
  by apply validateCRDSpec_frame.
Qed.

(** X5.  [Default] leaves a resource as it is exactly when nothing is unset:
    the upgrade strategy is not empty (or the automatic strategy is itself
    the empty string), the labels carry a managed-by label that is not
    empty, and the replica count is set. *)
Theorem Default_changes_nothing_iff (auto : string) (r : OpAMPBridge) :
  result (Default auto r) = r
  ↔ (UpgradeStrategy (Spec r) ≠ "" ∨ auto = "")
    ∧ (∃ m v, Labels r = Some m ∧ m !! managedBy = Some v ∧ v ≠ "")
    ∧ is_Some (Replicas (Spec r)).
Proof.
  split.
  - intros E. split; [| split].
    + pose proof (DefaultProperties.Default_UpgradeStrategy auto r) as H.
      rewrite E in H. destruct (UpgradeStrategy (Spec r)) eqn:Hu; [right | left; done].
      by cbn in H.
    + destruct (DefaultProperties.Default_managedBy_not_empty auto r) as (v & Hv & Hne).
      pose proof (DefaultProperties.Default_Labels auto r) as Hl.
      rewrite E in Hv, Hl. rewrite Hl in Hv. cbn in Hv. eauto.
    + pose proof (DefaultProperties.Default_Replicas auto r) as H.
      rewrite E in H. rewrite H. eauto.
  - intros (Hu & (m & v & Hl & Hm & Hv) & [n Hn]).
    apply (DefaultProperties.Default_fixed auto r m n); [| done | | done].
    + destruct (UpgradeStrategy (Spec r)) eqn:E; [right | by left].
      destruct Hu as [Hu | ->]; done.
    + unfold index. cbn. rewrite Hm. cbn. by destruct v.
Qed.



End WebhookCoverage.

(** ** [targetallocator.Deployment] and its config map *)
Module TargetallocatorCoverage.

Import V1alpha1 Targetallocator Outcome.

(** X7.  What [ConfigMap] returns reaches the manifest through the
    annotations of the pod template only: with any other [ConfigMap] in its
    place, failing or not, the manifest is the same but for these
    annotations. *)
Theorem ConfigMap_reaches_pod_annotations_only
    (env : Env) (f : Manifests.Params → Logged (option Corev1.ConfigMap * option error))
    (params : Manifests.Params) :
  withoutPodAnnotations (result (@Deployment (withConfigMap env f) params))
  = withoutPodAnnotations (result (@Deployment env params)).
Proof.
  unfold Deployment. cbn [ConfigMap withConfigMap].
  destruct (f params) as [l1 [cm1 [e1 |]]];
    destruct (@ConfigMap env params) as [l2 [cm2 [e2 |]]]; reflexivity.
Qed.

(** X8.  [Deployment] writes to the log what [ConfigMap] wrote, then its
    failure line if and only if [ConfigMap] returned an error, then what
    [Container] wrote, and nothing else. *)
Theorem Deployment_log (env : Env) (params : Manifests.Params) :
  written (Deployment params)
  = written (ConfigMap params)
    ++ (if snd (result (ConfigMap params)) is Some _
        then [configMapFailure (Manifests.Log params)] else [])
    ++ written (Container (Manifests.Config params) (Manifests.Log params)
                  (Manifests.OtelCol params)).
Proof.
  unfold Deployment. destruct (ConfigMap params) as [l [cm [e |]]];
    run_logged; cbn; by rewrite app_nil_r.
Qed.

End TargetallocatorCoverage.

(** ** The selector check of the tests *)
Module TestCoverage.

Import Shape Outcome.

Lemma selectorLoop_lookup (w : Appsv1.Workload) :
  selectorLoop w = true
  ↔ ∀ k v, entries (Appsv1.selector w) !! k = Some v
           → index (Appsv1.podLabels w) k = v.
Proof.
  unfold selectorLoop. rewrite forallb_forall. split.
  - intros H k v Hkv. apply elem_of_map_to_list, list_elem_of_In in Hkv.
    specialize (H _ Hkv). cbn in H. by apply String.eqb_eq in H.
  - intros H [k v] Hkv%list_elem_of_In%elem_of_map_to_list. cbn.
    apply String.eqb_eq. symmetry. by apply H.
Qed.

(** X9.  The selector loop of [TestDeploymentNewDefault] passes for every
    manifest whose selector is within the labels of the pod template.  It
    passes for such manifests only when no value of the selector is the
    empty string: a key of the selector with the empty string as its value
    passes also when the pod template has no such label, a missing label
    being read as the empty string. *)
Theorem selectorLoop_strength (w : Appsv1.Workload) :
  (selectorWithinPodLabels w → selectorLoop w = true)
  ∧ ((∀ k, entries (Appsv1.selector w) !! k ≠ Some "")
     → selectorLoop w = true → selectorWithinPodLabels w)
  ∧ selectorLoop
      {| Appsv1.selector := Some {[ "app" := "" ]}; Appsv1.podLabels := Some ∅;
         Appsv1.podAnnotations := None; Appsv1.podSpec := Appsv1.podSpec w |} = true
  ∧ ¬ selectorWithinPodLabels
        {| Appsv1.selector := Some {[ "app" := "" ]}; Appsv1.podLabels := Some ∅;
           Appsv1.podAnnotations := None; Appsv1.podSpec := Appsv1.podSpec w |}.
Proof.
  split; [| split; [| split]].
  - intros H. apply selectorLoop_lookup. intros k v Hkv. unfold index.
    by rewrite (proj1 (CompilerProperties.selectorWithinPodLabels_lookup w) H k v Hkv).
  - intros Hne H. apply (proj2 (CompilerProperties.selectorWithinPodLabels_lookup w)).
    intros k v Hkv. pose proof (proj1 (selectorLoop_lookup w) H k v Hkv) as Hi.
    unfold index in Hi. destruct (entries (Appsv1.podLabels w) !! k) as [v' |] eqn:E.
    + cbn in Hi. by subst.
    + cbn in Hi. subst v. by destruct (Hne k).
  - reflexivity.
  - intros H.
    pose proof (proj1 (CompilerProperties.selectorWithinPodLabels_lookup _) H
                  "app" "" eq_refl) as H'.
    discriminate H'.
Qed.

(** [selectorLoop_strength] on the bridge [Deployment] for the bridge of the
    tests: its selector is within the labels of its pod template, so the
    loop passes. *)
Lemma selectorLoop_strength_witness :
  selectorLoop
    (Appsv1.ofDeployment
       (result (@Opampbridge.Deployment Samples.sampleBridge (Config.Build_Config [])
                  "test" Samples.myInstance))) = true.
Proof.
  apply (proj1 (selectorLoop_strength _)).
  unfold selectorWithinPodLabels.
  destruct (@OpampbridgeProperties.Bridge_Deployment_labels Samples.sampleBridge
              (Config.Build_Config []) "test" Samples.myInstance) as (-> & ->).
  unfold entries, default, Opampbridge.SelectorLabels, Opampbridge.Labels.
  apply LabelProperties.SelectorLabels_Labels.
Defined.

End TestCoverage.
